(** * Distributed transformer training driver: a shallow embedding of main.py

    The development follows the source file top to bottom: the checkpoint
    helpers ([save_checkpoint], [restore_checkpoint]), the start-up part of
    [main] (mesh assertion, storage set-up, state construction and resume),
    the training loop of [main], and [train_step] / [eval_step].

    Python integers are [Z] ([//] and [%] are floor division and modulo and
    raise on a zero divisor), dictionaries are [gmap]s, exceptions are the
    [Raise] branch of [Result]. *)

From Stdlib Require Import ZArith Lia.
From stdpp Require Import sorting.
From stdpp Require Import numbers strings list fin_maps gmap.


Open Scope Z_scope.

(** ** Exceptions and the error monad *)

Inductive PyError :=
  | AssertionError
  | ZeroDivisionError
  | ValueError
  | IndexError
  | KeyError
  | FileNotFoundError
  | NotFound
  | UnboundLocalError
  | InvalidCheckpointError.

Inductive Result (A : Type) :=
  | Ok (a : A)
  | Raise (e : PyError).
Arguments Ok {A} a.
Arguments Raise {A} e.

Definition bind {A B} (m : Result A) (k : A -> Result B) : Result B :=
  match m with
  | Ok a => k a
  | Raise e => Raise e
  end.

Notation "'do' x <- m ; k" := (bind m (fun x => k))
  (at level 10, x name, m at level 100, k at level 200).
Notation "'do' ' p <- m ; k" := (bind m (fun x => match x with p => k end))
  (at level 10, p pattern, m at level 100, k at level 200).

Definition succeeds {A} (m : Result A) : Prop := exists a, m = Ok a.

(** ** Python integer operators *)

(** [a // b] *)
Definition floordiv (a b : Z) : Result Z :=
  if b =? 0 then Raise ZeroDivisionError else Ok (a / b).

(** [a % b] *)
Definition pymod (a b : Z) : Result Z :=
  if b =? 0 then Raise ZeroDivisionError else Ok (a mod b).

(** [assert c] *)
Definition py_assert (c : bool) : Result unit :=
  if c then Ok tt else Raise AssertionError.

(** ** main, lines 89-91: the mesh-shape assertion

    [assert num_devices // (cfg.device.dp_devices * cfg.device.mp_devices) == 1] *)
Definition check_mesh_shape (num_devices dp_devices mp_devices : Z) : Result unit :=
  do q <- floordiv num_devices (dp_devices * mp_devices);
  py_assert (q =? 1).

(** ** main, line 395: the sequence-length schedule used by the loop

    [step_to_seq = lambda x: 512] *)
Definition step_to_seq (x : Z) : Z := 512.

(** Modelled from the spec: the curriculum controller [step_to_seq_len] of
    src/training/training_utils.py is imported by main.py but its source is
    not available.  Section 4.5: with an empty stage list return the maximum
    context length; otherwise pick the sequence length of the last stage whose
    step threshold has been reached, saturating to the full length once the
    warm-up step budget is exceeded. *)
Fixpoint last_reached_stage (stages : list (Z * Z)) (step : Z) (acc : option Z)
  : option Z :=
  match stages with
  | [] => acc
  | (threshold, len) :: rest =>
      last_reached_stage rest step (if threshold <=? step then Some len else acc)
  end.

Definition step_to_seq_len (stages : list (Z * Z)) (max_steps max_context step : Z)
  : Z :=
  match stages with
  | [] => max_context
  | _ =>
      if max_steps <? step then max_context
      else default max_context (last_reached_stage stages step None)
  end.


(** f-string rendering of an optional configuration string. *)
Definition fmt_opt (o : option string) : string := default "None" o.

(** [checkpoint_files[:-keep]] *)
Definition slice_to_neg {A} (l : list A) (keep : nat) : list A :=
  match keep with
  | O => []
  | _ => take (length l - keep)%nat l
  end.

Fixpoint index_of (x : N) (l : list N) : nat :=
  match l with
  | [] => 0%nat
  | y :: l' => if decide (x = y) then 0%nat else S (index_of x l')
  end.

Definition natural_sort (l : list N) : list N := merge_sort N.le l.

Definition remove_all {V} (ks : list N) (m : gmap N V) : gmap N V :=
  foldr delete m ks.

(** [itertools.islice(src, start, None, step)] for [step >= 1]: the items at
    positions start, start + step, start + 2 * step, ... *)
Fixpoint islice {A} (start step : nat) (src : list A) : list A :=
  match src with
  | [] => []
  | s :: rest =>
      match start with
      | O => s :: islice (pred step) step rest
      | S k => islice k step rest
      end
  end.

(** ** main, lines 349-359: the shards one host reads

    [host_id] is [jax.process_index()] and [num_process] is [num_host];
    [islice] refuses a negative start. *)
Definition split_by_jax_process {A} (host_id num_process : Z) (src : list A)
  : Result (list A) :=
  if 1 <? num_process then
    if host_id <? 0 then Raise ValueError
    else Ok (islice (Z.to_nat host_id) (Z.to_nat num_process) src)
  else Ok src.

(** ** Configuration and process environment *)

Record Config := {
  dp_devices : Z;
  mp_devices : Z;
  bucket_path : option string;
  checkpoint_directory : string;
  batch_size : Z;
  gradient_accumulation_steps : Z;
  total_steps : Z;
  evaluation_frequency : Z;
  maximum_evaluation_steps : Z;
}.

Record Env := {
  num_devices : Z;         (* jax.device_count() *)
  num_local_devices : Z;   (* jax.local_device_count() *)
  process_index : Z;       (* jax.process_index() *)
  platform : string;       (* jax.local_devices()[0].platform *)
  resume : bool;           (* args.resume *)
}.

(** Modelled from the spec: the loss-scale state of section 9,
    [Dynamic{scale, growth_counter}], with the policy constants kept in the
    record (the class itself belongs to the training library, not to the
    repository).  The scale is an exact positive rational. *)
Record DynamicScale := {
  growth_factor : Qp;
  backoff_factor : Qp;
  growth_interval : N;
  fin_steps : N;
  scale : Qp;
}.

(** Modelled from the spec: section 4.4 step 3, the scale is decreased on
    overflow and cautiously increased after a run of healthy steps. *)
Definition adjust_scale (ds : DynamicScale) (finite : bool) : DynamicScale :=
  let grow := (fin_steps ds =? growth_interval ds)%N in
  {| growth_factor := growth_factor ds;
     backoff_factor := backoff_factor ds;
     growth_interval := growth_interval ds;
     fin_steps := if finite && negb grow then (fin_steps ds + 1)%N else 0%N;
     scale := if finite then
                (if grow then (scale ds * growth_factor ds)%Qp else scale ds)
              else (scale ds * backoff_factor ds)%Qp |}.

(** The collaborators of section 6 and the numeric library are interfaces:
    tensors, floats, batches, random keys and partition specs are opaque. *)
Class Types := {
  Tensor : Type;
  F : Type;        (* floating-point scalars: losses and metric values *)
  Logits : Type;
  Batch : Type;
  Key : Type;      (* random.PRNGKey *)
  Spec : Type;     (* PartitionSpec trees *)
}.

Section Program.

Context {types : Types}.

(** A tree of tensors, flattened: key path and leaf. *)
Definition PyTree : Type := list (string * Tensor).
Local Abbreviation Metrics := (gmap string F).

(** jax, jax.numpy, numpy, optax, time and the token counter of
    src/training/training_utils.py. *)
Class Library := {
  shape : Tensor -> list nat;
  value_and_grad : (PyTree -> F) -> PyTree -> F * PyTree;
  scaled_value_and_grad : Qp -> (PyTree -> F) -> PyTree -> bool * F * PyTree;
  with_sharding_constraint : PyTree -> Spec -> PyTree;
  apply_updates : PyTree -> PyTree -> PyTree;
  jnp_exp : F -> F;
  np_mean : list F -> F;
  float_of_scale : Qp -> F;
  float_of_int : Z -> F;
  fmul_int : Z -> F -> F;
  random_split : Key -> Key * Key;
  PRNGKey0 : Key;
  reshape : Batch -> Z -> Batch;
  batch_time : Z -> F;
  tokens_seen : Z -> F;
}.

Context {lib : Library}.

Record Optimizer := {
  tx_init : PyTree -> PyTree;
  tx_update : PyTree -> PyTree -> PyTree -> PyTree * PyTree;
}.

(** Modelled from the spec: the [TrainState] class of
    src/training/training_utils.py (section 3, TrainingState). *)
Record TrainState := {
  step : N;
  apply_fn : PyTree -> Batch -> Batch -> bool -> option Key -> Logits * F;
  params : PyTree;
  tx : Optimizer;
  opt_state : PyTree;
  dynamic_scale : option DynamicScale;
}.

(** The model, the optimizer and the state builders main obtains from
    src/models, src/training and src/utils. *)
Class Collaborators := {
  model_apply : PyTree -> Batch -> Batch -> bool -> option Key -> Logits * F;
  mp_tx : Optimizer;
  mp_param_spec : Spec;
  create_train_state : Key -> TrainState;
  init_sharded_state : Key -> TrainState;
}.

Context {col : Collaborators}.

(** Modelled from the spec: section 4.4 step 5, apply the optimizer's update
    rule to produce new params and opt_state and increment step by 1. *)
Definition apply_gradients (state : TrainState) (grads : PyTree) : TrainState :=
  let '(updates, new_opt_state) :=
    tx_update (tx state) grads (opt_state state) (params state) in
  {| step := (step state + 1)%N;
     apply_fn := apply_fn state;
     params := apply_updates (params state) updates;
     tx := tx state;
     opt_state := new_opt_state;
     dynamic_scale := dynamic_scale state |}.

(** Modelled from the spec: section 4.4 step 3, differentiate the scaled
    loss, report whether the gradients are finite and adjust the scale.
    This is [value_and_grad(fun, has_aux, axis_name)] of the scale object,
    a method of the training library: with [has_aux] it takes the result of
    [fun] for a pair [(loss, aux)] and indexes it, and [fun] here returns a
    bare scalar, so the index raises IndexError; the mean over [axis_name]
    is part of [scaled_value_and_grad]. *)
Definition dynamic_value_and_grad (ds : DynamicScale) (has_aux : bool)
    (axis_name : option string) (loss_fn : PyTree -> F) (p : PyTree)
  : Result (DynamicScale * bool * F * PyTree) :=
  if has_aux then Raise IndexError
  else
    let '(is_fin, loss, grads) := scaled_value_and_grad (scale ds) loss_fn p in
    Ok (adjust_scale ds is_fin, is_fin, loss, grads).

(** [jnp.where(c, x, y)] with a scalar condition on two leaves of one shape. *)
Definition jnp_where (c : bool) (x y : Tensor) : Result Tensor :=
  if decide (shape x = shape y) then Ok (if c then x else y)
  else Raise ValueError.

(** [jax.tree_util.tree_map(f, t1, t2)]: the trees must have one structure. *)
Fixpoint tree_map2 (f : Tensor -> Tensor -> Result Tensor) (t1 t2 : PyTree)
  : Result PyTree :=
  match t1, t2 with
  | [], [] => Ok []
  | (k1, x) :: r1, (k2, y) :: r2 =>
      if decide (k1 = k2) then
        do z <- f x y;
        do r <- tree_map2 f r1 r2;
        Ok ((k1, z) :: r)
      else Raise ValueError
  | _, _ => Raise ValueError
  end.

Definition with_dynamic_scale (s : TrainState) (ds : option DynamicScale)
  : TrainState :=
  {| step := step s; apply_fn := apply_fn s; params := params s; tx := tx s;
     opt_state := opt_state s; dynamic_scale := ds |}.

(** lines 549-558 *)
Definition loss_fn (state : TrainState) (batch : Batch) (rng_key : option Key)
  : PyTree -> F :=
  fun p => snd (apply_fn state p batch batch true rng_key).

(** ** train_step, lines 544-600 *)
Definition train_step (state : TrainState) (batch : Batch) (rng_key : option Key)
    (param_spec : option Spec) : Result (TrainState * Metrics) :=
  let loss_fn := loss_fn state batch rng_key in
  match dynamic_scale state with
  | Some ds =>
      do '(ds', is_fin, loss, grads) <-
        dynamic_value_and_grad ds true (Some "batch") loss_fn (params state);
      let state := with_dynamic_scale state (Some ds') in
      let new_state := apply_gradients state grads in
      do opt <- tree_map2 (jnp_where is_fin) (opt_state new_state) (opt_state state);
      do par <- tree_map2 (jnp_where is_fin) (params new_state) (params state);
      let new_state :=
        {| step := step new_state; apply_fn := apply_fn new_state;
           params := par; tx := tx new_state; opt_state := opt;
           dynamic_scale := Some ds' |} in
      let metrics : Metrics :=
        <["Loss Scale" := float_of_scale (scale ds')]>
          (<["Train LM PPL" := jnp_exp loss]> {["Train LM Loss" := loss]}) in
      Ok (new_state, metrics)
  | None =>
      let '(loss, grads) := value_and_grad loss_fn (params state) in
      let grads :=
        match param_spec with
        | Some sp => with_sharding_constraint grads sp
        | None => grads
        end in
      let new_state := apply_gradients state grads in
      let metrics : Metrics :=
        <["Train LM PPL" := jnp_exp loss]> {["Train LM Loss" := loss]} in
      Ok (new_state, metrics)
  end.

(** lines 606-611 *)
Definition validation_loss (state : TrainState) (batch : Batch) : F :=
  snd (apply_fn state (params state) batch batch false None).

(** ** eval_step, lines 603-615 *)
Definition eval_step (state : TrainState) (batch : Batch) : Metrics :=
  let loss := validation_loss state batch in
  <["Validation LM PPL" := jnp_exp loss]> {["Validation LM Loss" := loss]}.

(** ** Durable storage

    Primary checkpoints live in directories handled by the checkpoint
    library (directory name to step to serialised state); [open] addresses
    plain files by path; the bucket API addresses blobs by bucket and name.
    The three are kept apart: the entries of a gs:// directory are not also
    listed among the blobs of its bucket. *)
Record StateDict := {
  sd_step : N;
  sd_params : PyTree;
  sd_opt_state : PyTree;
  sd_dynamic_scale : option (N * Qp);   (* fin_steps and scale *)
}.

Record Storage := {
  ckpt_dirs : gmap string (gmap N StateDict);
  files : gmap string PyTree;
  bucket_blobs : gmap (option string * string) PyTree;
}.

(** The state dictionary holds the data fields only: of a scale object its
    [fin_steps] and [scale], not the policy constants. *)
Definition to_state_dict (s : TrainState) : StateDict :=
  {| sd_step := step s; sd_params := params s; sd_opt_state := opt_state s;
     sd_dynamic_scale :=
       (fun ds => (fin_steps ds, scale ds)) <$> dynamic_scale s |}.

(** The restored scale object is the target's with the saved [fin_steps]
    and [scale].  A target and a checkpoint that disagree on whether loss
    scaling is enabled are outside the model (the field read back would not
    be a scale object): the target's field is kept. *)
Definition restore_scale (target : option DynamicScale) (saved : option (N * Qp))
  : option DynamicScale :=
  match target, saved with
  | Some t, Some (fs, sc) =>
      Some {| growth_factor := growth_factor t;
              backoff_factor := backoff_factor t;
              growth_interval := growth_interval t;
              fin_steps := fs; scale := sc |}
  | _, _ => target
  end.

Definition from_state_dict (target : TrainState) (sd : StateDict) : TrainState :=
  {| step := sd_step sd; apply_fn := apply_fn target; params := sd_params sd;
     tx := tx target; opt_state := sd_opt_state sd;
     dynamic_scale := restore_scale (dynamic_scale target) (sd_dynamic_scale sd) |}.

(** The steps of the checkpoints a directory holds, oldest first. *)
Definition listed_steps (dir : gmap N StateDict) : list N :=
  natural_sort (elements (dom dir)).

(** The last [n] entries of a list. *)
Definition lastn {A} (n : nat) (l : list A) : list A :=
  drop (length l - n)%nat l.

(** The sorted listing of a checkpoint directory once [ckpt_step] is in it. *)
Definition checkpoint_listing (dir : gmap N StateDict) (ckpt_step : N) : list N :=
  let listed := elements (dom dir) in
  natural_sort (if bool_decide (ckpt_step ∈ listed) then listed
                else listed ++ [ckpt_step]).

(** What [keep] leaves of the listing when [ckpt_step] is written with
    [overwrite]: the last [keep] entries up to and including [ckpt_step]. *)
Definition retained_files (dir : gmap N StateDict) (ckpt_step : N) (keep : nat)
  : list N :=
  let files := checkpoint_listing dir ckpt_step in
  let kept := take (S (index_of ckpt_step files)) files in
  drop (length kept - keep)%nat kept.

(** Modelled from the spec: [checkpoints.save_checkpoint] of the checkpoint
    library (section 4.6 and section 6: [checkpoint_<step>] entries, keep at
    most [keep] most recent primary checkpoints, older ones are pruned; with
    [overwrite] entries newer than the one written are removed). *)
Definition flax_save_checkpoint (dir : gmap N StateDict) (target : StateDict)
    (ckpt_step : N) (keep : nat) (overwrite : bool) : Result (gmap N StateDict) :=
  let listed := elements (dom dir) in
  let present := bool_decide (ckpt_step ∈ listed) in
  if present && negb overwrite then Raise InvalidCheckpointError else
  let checkpoint_files :=
    natural_sort (if present then listed else listed ++ [ckpt_step]) in
  if negb (bool_decide (last checkpoint_files = Some ckpt_step)) && negb overwrite
  then Raise InvalidCheckpointError else
  let dir := <[ckpt_step := target]> dir in
  let ind := S (index_of ckpt_step checkpoint_files) in
  let newer_ckpts := if overwrite then drop ind checkpoint_files else [] in
  let checkpoint_files :=
    if overwrite then take ind checkpoint_files else checkpoint_files in
  let dir := remove_all newer_ckpts dir in
  let old_ckpts :=
    if (keep <? length checkpoint_files)%nat
    then slice_to_neg checkpoint_files keep else [] in
  Ok (remove_all old_ckpts dir).

(** The checkpoint library's [checkpoints.restore_checkpoint] (library code,
    outside the repository): the newest [checkpoint_<step>] entry of the
    directory is read into the target; when the directory holds no
    checkpoint the target is returned unchanged. *)
Definition flax_restore_checkpoint (dir : gmap N StateDict) (target : TrainState)
  : TrainState :=
  match last (natural_sort (elements (dom dir))) with
  | Some k =>
      match dir !! k with
      | Some sd => from_state_dict target sd
      | None => target
      end
  | None => target
  end.

Definition listdir (sto : Storage) (workdir : string) : gmap N StateDict :=
  default ∅ (ckpt_dirs sto !! workdir).

Definition set_ckpt_dir (sto : Storage) (workdir : string)
    (dir : gmap N StateDict) : Storage :=
  {| ckpt_dirs := <[workdir := dir]> (ckpt_dirs sto);
     files := files sto; bucket_blobs := bucket_blobs sto |}.

Definition write_file (sto : Storage) (path : string) (b : PyTree) : Storage :=
  {| ckpt_dirs := ckpt_dirs sto; files := <[path := b]> (files sto);
     bucket_blobs := bucket_blobs sto |}.

Definition upload_blob (sto : Storage) (bucket : option string) (name : string)
    (b : PyTree) : Storage :=
  {| ckpt_dirs := ckpt_dirs sto; files := files sto;
     bucket_blobs := <[(bucket, name) := b]> (bucket_blobs sto) |}.

(** ** save_checkpoint, lines 56-72 *)
Definition save_checkpoint (rank : Z) (state : TrainState) (workdir : string)
    (bucket : option string) (client : option unit) (sto : Storage)
  : Result Storage :=
  if rank =? 0 then
    let ckpt_step := step state in
    do dir <- flax_save_checkpoint (listdir sto workdir) (to_state_dict state)
                ckpt_step 3 true;
    let sto := set_ckpt_dir sto workdir dir in
    match client with
    | Some _ =>
        Ok (upload_blob sto bucket "checkpoints/opt_state.msgpack"
              (opt_state state))
    | None =>
        Ok (write_file sto (workdir ++ "/opt_state.msgpack") (opt_state state))
    end
  else Ok sto.

(** Successive save cycles on one destination, one per state. *)
Fixpoint save_cycles (rank : Z) (workdir : string) (bucket : option string)
    (client : option unit) (states : list TrainState) (sto : Storage)
  : Result Storage :=
  match states with
  | [] => Ok sto
  | state :: rest =>
      do sto' <- save_checkpoint rank state workdir bucket client sto;
      save_cycles rank workdir bucket client rest sto'
  end.

(** ** restore_checkpoint, lines 75-76 *)
Definition restore_checkpoint (state : TrainState) (workdir : string)
    (sto : Storage) : TrainState :=
  flax_restore_checkpoint (listdir sto workdir) state.

(** ** main, lines 79-393: start-up

    Model, mesh, data-pipeline and logging set-up are collaborators and are
    left out; what is kept is what decides whether start-up succeeds, which
    state the loop starts from and which storage handles it uses. *)

Definition gs_workdir (cfg : Config) : string :=
  "gs://" ++ fmt_opt (bucket_path cfg) ++ "/" ++ checkpoint_directory cfg.

(** [open(path, "rb").read()] *)
Definition read_file (sto : Storage) (path : string) : Result PyTree :=
  match files sto !! path with
  | Some b => Ok b
  | None => Raise FileNotFoundError
  end.

(** [bucket.blob(name).download_as_bytes()] *)
Definition download_blob (sto : Storage) (bucket : option string) (name : string)
  : Result PyTree :=
  match bucket_blobs sto !! (bucket, name) with
  | Some b => Ok b
  | None => Raise NotFound
  end.

(** lines 305-308: delete every blob of the bucket under the prefix. *)
Definition clear_bucket (sto : Storage) (bucket : string) (pre : string) : Storage :=
  {| ckpt_dirs :=
       filter (fun kv => String.prefix ("gs://" ++ bucket ++ "/" ++ pre) kv.1 = false)
              (ckpt_dirs sto);
     files := files sto;
     bucket_blobs :=
       filter (fun kv => ~ (kv.1.1 = Some bucket /\ String.prefix pre kv.1.2 = true))
              (bucket_blobs sto) |}.

(** lines 208-215 *)
Definition restore_state (p : PyTree) (st : N) (o : PyTree) : TrainState :=
  {| step := st; apply_fn := model_apply; params := p; tx := mp_tx;
     opt_state := o; dynamic_scale := None |}.

(** lines 141-278: state construction, fresh or resumed. *)
Definition build_state (cfg : Config) (env : Env) (save_to_bucket : bool)
    (bucket : option string) (rng init_rng : Key) (sto : Storage)
  : Result (TrainState * option Z) :=
  if mp_devices cfg =? 1 then
    let state := create_train_state init_rng in
    if resume env then
      let state :=
        if save_to_bucket then restore_checkpoint state (gs_workdir cfg) sto
        else restore_checkpoint state (checkpoint_directory cfg) sto in
      Ok (state, Some (Z.of_N (step state)))
    else Ok (state, None)
  else
    if resume env then
      let state := create_train_state init_rng in
      do '(state, opt_bytes) <-
        (if save_to_bucket then
           do opt_bytes <- download_blob sto bucket "checkpoints/opt_state.msgpack";
           Ok (restore_checkpoint state (gs_workdir cfg) sto, opt_bytes)
         else
           let state := restore_checkpoint state (checkpoint_directory cfg) sto in
           do opt_bytes <-
             read_file sto (checkpoint_directory cfg ++ "/opt_state.msgpack");
           Ok (state, opt_bytes));
      let resume_step := Z.of_N (step state) in
      Ok (restore_state (params state) (step state) opt_bytes, Some resume_step)
    else Ok (init_sharded_state rng, None).

Record Init := {
  init_state : TrainState;
  init_rng : Key;
  resume_step : option Z;
  init_client : option unit;
  init_bucket : option string;
  save_to_bucket : bool;
  init_storage : Storage;
}.

Definition startup (cfg : Config) (env : Env) (sto : Storage) : Result Init :=
  do num_host <- floordiv (num_devices env) (num_local_devices env);
  do _ <- check_mesh_shape (num_devices env) (dp_devices cfg) (mp_devices cfg);
  let on_tpu := bool_decide (platform env = "tpu") in
  let gcp := on_tpu && bool_decide (is_Some (bucket_path cfg)) in
  let client := if gcp then Some tt else None in
  let bucket := if gcp then bucket_path cfg else None in
  let '(rng, init_rng) := random_split PRNGKey0 in
  do '(state, resume_step) <- build_state cfg env gcp bucket rng init_rng sto;
  do '(client, sto) <-
    (if resume env then Ok (client, sto)
     else
       match bucket_path cfg with
       | None => Ok (client, sto)
       | Some b =>
           (* [storage] is bound only by the import of line 107 *)
           if on_tpu then
             Ok (Some tt,
                 if process_index env =? 0
                 then clear_bucket sto b (checkpoint_directory cfg) else sto)
           else Raise UnboundLocalError
       end);
  do per_host <- floordiv (num_local_devices env) (mp_devices cfg);
  do local_batch_size <- floordiv (batch_size cfg) per_host;
  (* [train_shards] is bound in neither branch of lines 104-118 *)
  if on_tpu && negb (bool_decide (is_Some (bucket_path cfg)))
  then Raise UnboundLocalError
  else
    Ok {| init_state := state; init_rng := rng; resume_step := resume_step;
          init_client := client; init_bucket := bucket; save_to_bucket := gcp;
          init_storage := sto |}.

(** ** main, lines 393-541: the training loop *)

Record LoopState := {
  ls_state : TrainState;
  ls_rng : Key;
  running_metrics : list Metrics;
  ls_storage : Storage;
  wandb_log : list Metrics;
}.

Inductive Control :=
  | Continue (ls : LoopState)
  | Return (ls : LoopState).

(** [{k: np.mean([m[k] for m in ms]) for k in ms[0]}] *)
Definition dict_means (ms : list Metrics) : Result Metrics :=
  match ms with
  | [] => Raise IndexError
  | m0 :: _ =>
      if bool_decide (Forall (fun m : Metrics => dom m0 ⊆ dom m) ms) then
        Ok (map_imap (fun k _ => Some (np_mean (omap (fun m : Metrics => m !! k) ms))) m0)
      else Raise KeyError
  end.

(** [d.pop(k)] *)
Definition dict_pop (k : string) (d : Metrics) : Result Metrics :=
  match d !! k with
  | Some _ => Ok (delete k d)
  | None => Raise KeyError
  end.

(** [d[k]] *)
Definition dict_get (k : string) (d : Metrics) : Result F :=
  match d !! k with
  | Some v => Ok v
  | None => Raise KeyError
  end.

(** [pjit(f, in_axis_resources=specs)] at a call: the tuple of argument specs
    has to match the positional arguments; a tuple of another length is
    refused with ValueError when the wrapped function is called. *)
Definition pjit {A} (in_axis_resources n_args : nat) (call : Result A)
  : Result A :=
  if (in_axis_resources =? n_args)%nat then call else Raise ValueError.

(** lines 399-403 and 413-417: [pjit_train_step] as each branch builds it,
    called as in lines 448-452 with [state], [text] and [dropout_rng]. *)
Definition pjit_train_step (cfg : Config) (state : TrainState) (text : Batch)
    (dropout_rng : Key) : Result (TrainState * Metrics) :=
  if mp_devices cfg =? 1 then
    pjit 4 3 (train_step state text (Some dropout_rng) None)
  else
    pjit 3 3 (train_step state text (Some dropout_rng) (Some mp_param_spec)).

(** lines 454-455 *)
Definition stamp_metrics (i : Z) (metrics : Metrics) : Metrics :=
  <["Train Sequence Length" := float_of_int (step_to_seq i)]>
    (<["Train Batch Time" := batch_time i]> metrics).

(** lines 491-499; [pjit_eval_step] has two specs for its two arguments in
    both branches (lines 405-409 and 419-423). *)
Definition run_validation (cfg : Config) (state : TrainState) (vl : list Batch)
  : list Metrics :=
  map (eval_step state) (take (Z.to_nat (maximum_evaluation_steps cfg)) vl).

(** lines 511-531 *)
Definition checkpoint_state (cfg : Config) (env : Env) (ini : Init)
    (state : TrainState) (sto : Storage) : Result Storage :=
  if 1 <? mp_devices cfg then
    save_checkpoint (process_index env) state (gs_workdir cfg)
      (init_bucket ini) (init_client ini) sto
  else if save_to_bucket ini then
    save_checkpoint (process_index env) state (gs_workdir cfg) None None sto
  else
    save_checkpoint (process_index env) state (checkpoint_directory cfg)
      None None sto.


(** lines 440-541: one microbatch that is neither past the budget nor skipped. *)
Definition process_microbatch (cfg : Config) (env : Env) (ini : Init)
    (vl : list Batch) (i : Z) (text : Batch) (ls : LoopState) : Result LoopState :=
  let ga := gradient_accumulation_steps cfg in
  let '(rng, dropout_rng) := random_split (ls_rng ls) in
  let seq_len := step_to_seq i in
  let text := reshape text seq_len in
  do '(state, metrics) <- pjit_train_step cfg (ls_state ls) text dropout_rng;
  let metrics := stamp_metrics i metrics in
  let running := running_metrics ls ++ [metrics] in
  do r <- pymod i ga;
  if r =? 0 then
    do train_metrics_np <- dict_means running;
    do absolute_step <- floordiv i ga;
    let train_metrics_np : Metrics :=
      <["Tokens Seen (B)" := tokens_seen absolute_step]> train_metrics_np in
    do r' <- pymod i (evaluation_frequency cfg * ga);
    if r' =? 0 then
      let validation_metrics := run_validation cfg state vl in
      do validation_metrics_np <- dict_means validation_metrics;
      if process_index env =? 0 then
        do logged <- dict_pop "Train Batch Time"
                       (validation_metrics_np ∪ train_metrics_np);
        do sto <- checkpoint_state cfg env ini state (ls_storage ls);
        Ok {| ls_state := state; ls_rng := rng; running_metrics := [];
              ls_storage := sto; wandb_log := wandb_log ls ++ [logged] |}
      else
        Ok {| ls_state := state; ls_rng := rng; running_metrics := [];
              ls_storage := ls_storage ls; wandb_log := wandb_log ls |}
    else
      if process_index env =? 0 then
        do bt <- dict_get "Train Batch Time" train_metrics_np;
        do logged <- dict_pop "Train Batch Time"
                       (<["Train Step Time" := fmul_int ga bt]> train_metrics_np);
        Ok {| ls_state := state; ls_rng := rng; running_metrics := [];
              ls_storage := ls_storage ls; wandb_log := wandb_log ls ++ [logged] |}
      else
        Ok {| ls_state := state; ls_rng := rng; running_metrics := [];
              ls_storage := ls_storage ls; wandb_log := wandb_log ls |}
  else
    Ok {| ls_state := state; ls_rng := rng; running_metrics := running;
          ls_storage := ls_storage ls; wandb_log := wandb_log ls |}.

(** line 437: [resume_step != None and i <= resume_step] *)
Definition skip_guard (rs : option Z) (i : Z) : bool :=
  match rs with
  | Some r => i <=? r
  | None => false
  end.

(** lines 427-541: the body of the loop for microbatch [i]. *)
Definition loop_body (cfg : Config) (env : Env) (ini : Init) (vl : list Batch)
    (i : Z) (text : Batch) (ls : LoopState) : Result Control :=
  do q <- floordiv i (gradient_accumulation_steps cfg);
  if total_steps cfg <? q then Ok (Return ls)
  else if skip_guard (resume_step ini) i then Ok (Continue ls)
  else
    do ls' <- process_microbatch cfg env ini vl i text ls;
    Ok (Continue ls').

(** [for i, text in enumerate(tl)]: [true] when the loop returned. *)
Fixpoint train_loop (cfg : Config) (env : Env) (ini : Init) (vl : list Batch)
    (i : Z) (tl : list Batch) (ls : LoopState) : Result (bool * LoopState) :=
  match tl with
  | [] => Ok (false, ls)
  | text :: rest =>
      do c <- loop_body cfg env ini vl i text ls;
      match c with
      | Return ls' => Ok (true, ls')
      | Continue ls' => train_loop cfg env ini vl (i + 1) rest ls'
      end
  end.

(** The microbatches [texts], taken as those of indices [i], [i + 1], ...,
    each one processed in turn: no index skipped, no early return. *)
Fixpoint process_all (cfg : Config) (env : Env) (ini : Init) (vl : list Batch)
    (i : Z) (texts : list Batch) (ls : LoopState) : Result LoopState :=
  match texts with
  | [] => Ok ls
  | text :: rest =>
      do ls' <- process_microbatch cfg env ini vl i text ls;
      process_all cfg env ini vl (i + 1) rest ls'
  end.

Definition initial_loop_state (ini : Init) : LoopState :=
  {| ls_state := init_state ini; ls_rng := init_rng ini; running_metrics := [];
     ls_storage := init_storage ini; wandb_log := [] |}.

Definition main (cfg : Config) (env : Env) (tl vl : list Batch) (sto : Storage)
  : Result (bool * LoopState) :=
  do ini <- startup cfg env sto;
  train_loop cfg env ini vl 0 tl (initial_loop_state ini).

End Program.

(** ** A concrete instance

    Integers stand for tensors, floats, batches and keys; the instance is
    used to run the program on explicit inputs. *)

Module Demo.

#[export] Instance types : Types :=
  {| Tensor := Z; F := Z; Logits := unit; Batch := Z; Key := Z; Spec := unit |}.

#[export] Instance lib : Library :=
  {| shape := fun _ => [];
     value_and_grad := fun f p => (f p, p);
     scaled_value_and_grad := fun _ f p => (false, f p, p);
     with_sharding_constraint := fun g _ => g;
     apply_updates := fun p u =>
       map (fun kv => (kv.1, kv.2 + Z.of_nat (length u))) p;
     jnp_exp := fun x => 2 * x;
     np_mean := fun l => foldr Z.add 0 l;
     float_of_scale := fun _ => 0;
     float_of_int := fun z => z;
     fmul_int := Z.mul;
     random_split := fun k => (k + 1, k + 2);
     PRNGKey0 := 0;
     reshape := fun b _ => b;
     batch_time := fun _ => 1;
     tokens_seen := fun z => z |}.

Definition key (z : Z) : Key := z.
Definition batch (z : Z) : Batch := z.

Definition sgd : Optimizer :=
  {| tx_init := fun p => p; tx_update := fun g o p => (g, o) |}.

Definition apply (p : PyTree) (x labels : Z) (train : bool) (k : option Z)
  : unit * Z := (tt, x).

Definition state_at (s : N) (ds : option DynamicScale) : TrainState :=
  {| step := s; apply_fn := apply; params := [("w", 1)]; tx := sgd;
     opt_state := [("mu", 0)]; dynamic_scale := ds |}.

Definition half_on_overflow : DynamicScale :=
  {| growth_factor := pos_to_Qp 2; backoff_factor := (1 / 2)%Qp;
     growth_interval := 2000; fin_steps := 0; scale := pos_to_Qp 65536 |}.

#[export] Instance col : Collaborators :=
  {| model_apply := apply; mp_tx := sgd; mp_param_spec := tt;
     create_train_state := fun _ => state_at 0 None;
     init_sharded_state := fun _ => state_at 0 None |}.

Definition cfg : Config :=
  {| dp_devices := 8; mp_devices := 1; bucket_path := None;
     checkpoint_directory := "checkpoints"; batch_size := 16;
     gradient_accumulation_steps := 2; total_steps := 100;
     evaluation_frequency := 5; maximum_evaluation_steps := 1 |}.

Definition env (rank : Z) (resume : bool) : Env :=
  {| num_devices := 8; num_local_devices := 8; process_index := rank;
     platform := "gpu"; resume := resume |}.

Definition empty_storage : Storage :=
  {| ckpt_dirs := ∅; files := ∅; bucket_blobs := ∅ |}.

Definition storage_at_step_5 : Storage :=
  {| ckpt_dirs := {["checkpoints" := {[5%N := to_state_dict (state_at 5 None)]}]};
     files := ∅; bucket_blobs := ∅ |}.

Definition resumed_at_5 : Init :=
  {| init_state := state_at 5 None; init_rng := key 1; resume_step := Some 5;
     init_client := None; init_bucket := None; save_to_bucket := false;
     init_storage := storage_at_step_5 |}.

Definition fresh_ini : Init :=
  {| init_state := state_at 0 None; init_rng := key 1; resume_step := None;
     init_client := None; init_bucket := None; save_to_bucket := false;
     init_storage := empty_storage |}.

(** The combined path on a bucket: 4 x 2 devices. *)
Definition cfg_mp : Config :=
  {| dp_devices := 4; mp_devices := 2; bucket_path := Some "bkt";
     checkpoint_directory := "checkpoints"; batch_size := 16;
     gradient_accumulation_steps := 2; total_steps := 100;
     evaluation_frequency := 5; maximum_evaluation_steps := 1 |}.

(** The data-parallel path with a bucket path. *)
Definition cfg_bucket : Config :=
  {| dp_devices := 8; mp_devices := 1; bucket_path := Some "bkt";
     checkpoint_directory := "checkpoints"; batch_size := 16;
     gradient_accumulation_steps := 2; total_steps := 100;
     evaluation_frequency := 5; maximum_evaluation_steps := 1 |}.

Definition cfg_no_accumulation_factor : Config :=
  {| dp_devices := 8; mp_devices := 1; bucket_path := None;
     checkpoint_directory := "checkpoints"; batch_size := 16;
     gradient_accumulation_steps := 0; total_steps := 100;
     evaluation_frequency := 5; maximum_evaluation_steps := 1 |}.

Definition cfg_no_evaluation_frequency : Config :=
  {| dp_devices := 4; mp_devices := 2; bucket_path := Some "bkt";
     checkpoint_directory := "checkpoints"; batch_size := 16;
     gradient_accumulation_steps := 2; total_steps := 100;
     evaluation_frequency := 0; maximum_evaluation_steps := 1 |}.

Definition env_tpu (rank : Z) (resume : bool) : Env :=
  {| num_devices := 8; num_local_devices := 8; process_index := rank;
     platform := "tpu"; resume := resume |}.

Definition bucket_storage_at_step_5 : Storage :=
  {| ckpt_dirs :=
       {["gs://bkt/checkpoints" := {[5%N := to_state_dict (state_at 5 None)]}]};
     files := ∅; bucket_blobs := ∅ |}.

Definition bucket_ini : Init :=
  {| init_state := state_at 0 None; init_rng := key 1; resume_step := None;
     init_client := Some tt; init_bucket := Some "bkt"; save_to_bucket := true;
     init_storage := empty_storage |}.

(** A bucket that holds what a combined-path resume reads: the checkpoint
    of step 5 and the separate opt_state blob. *)
Definition bucket_resumable_at_5 : Storage :=
  {| ckpt_dirs :=
       {["gs://bkt/checkpoints" := {[5%N := to_state_dict (state_at 5 None)]}]};
     files := ∅;
     bucket_blobs :=
       {[(Some "bkt", "checkpoints/opt_state.msgpack") := [("mu", 0)]]} |}.

Definition bucket_resumed_at_5 : Init :=
  {| init_state := state_at 5 None; init_rng := key 1; resume_step := Some 5;
     init_client := Some tt; init_bucket := Some "bkt"; save_to_bucket := true;
     init_storage := bucket_resumable_at_5 |}.


Definition eight_batches : list Batch :=
  [batch 10; batch 11; batch 12; batch 13; batch 14; batch 15; batch 16;
   batch 17].

End Demo.

(** ** Theorems *)

Section Theorems.

Context {types : Types} {lib : Library} {col : Collaborators}.
Local Abbreviation Metrics := (gmap string F).

Lemma floordiv_ok a b : b <> 0 -> floordiv a b = Ok (a / b).
Proof. intros Hb. unfold floordiv. destruct (Z.eqb_spec b 0); [lia | done]. Qed.

Lemma pymod_ok a b : b <> 0 -> pymod a b = Ok (a mod b).
Proof. intros Hb. unfold pymod. destruct (Z.eqb_spec b 0); [lia | done]. Qed.

(** What the assertion accepts: exactly the shapes whose product fits once,
    but not twice, into the device count. *)
Lemma check_mesh_shape_spec n dp mp :
  check_mesh_shape n dp mp = Ok tt <-> dp * mp <> 0 /\ n / (dp * mp) = 1.
Proof.
  unfold check_mesh_shape, floordiv.
  destruct (Z.eqb_spec (dp * mp) 0) as [E | E]; simpl.
  - split; [discriminate | tauto].
  - unfold py_assert. destruct (Z.eqb_spec (n / (dp * mp)) 1).
    + split; [intros _; split; assumption | reflexivity].
    + split; [discriminate | intros [_ ?]; lia].
Qed.

Lemma check_mesh_shape_product n dp mp :
  0 < n -> dp * mp = n -> check_mesh_shape n dp mp = Ok tt.
Proof.
  intros Hn E. apply check_mesh_shape_spec. split; [lia |].
  rewrite E. apply Z.div_same. lia.
Qed.

(** C2 (the code at the failing input): with 8 devices and a requested mesh
    of 5 x 1 the product differs from the device count, yet the start-up
    assertion passes, because it compares the floor quotient with 1. *)
Theorem check_mesh_shape_accepts_mismatch :
  5 * 1 <> 8 /\ check_mesh_shape 8 5 1 = Ok tt.
Proof. split; [lia | reflexivity]. Qed.

(** C3 (the code at the failing input): the schedule the loop uses is the
    constant 512 whatever the configured stages are, so at step 0 it returns
    512 where the staged schedule [(0,128),(1000,512)] with a warm-up of 1000
    steps prescribes 128. *)
Theorem step_to_seq_ignores_stages :
  step_to_seq 0 = 512 /\
  step_to_seq_len [(0, 128); (1000, 512)] 1000 512 0 = 128 /\
  step_to_seq 999 <> step_to_seq_len [(0, 128); (1000, 512)] 1000 512 999.
Proof. split; [reflexivity | split; [reflexivity | vm_compute; discriminate]]. Qed.

Lemma apply_gradients_step (state : TrainState) (grads : PyTree) :
  step (apply_gradients state grads) = (step state + 1)%N.
Proof. unfold apply_gradients. by destruct (tx_update _ _ _ _). Qed.

(** Every branch of train_step that returns has advanced the step counter
    by exactly one. *)
Lemma train_step_step state batch rng_key param_spec new_state metrics :
  train_step state batch rng_key param_spec = Ok (new_state, metrics) ->
  step new_state = (step state + 1)%N.
Proof.
  unfold train_step. destruct (dynamic_scale state) as [ds |].
  - discriminate.
  - destruct (value_and_grad _ _) as [loss grads].
    intros [= <- _]. by rewrite apply_gradients_step.
Qed.

(** C1 (the code on every state with loss scaling): the scaled branch asks
    the scale object for a differentiation with an auxiliary output
    (line 562) of a loss function that returns a bare scalar, so train_step
    raises IndexError before it reaches the rollback of lines 575-590: it
    returns no state at all, whatever the gradients are. *)
Theorem train_step_scaled_raises (state : TrainState) (ds : DynamicScale)
    (batch : Batch) (rng_key : option Key) (param_spec : option Spec) :
  dynamic_scale state = Some ds ->
  train_step state batch rng_key param_spec = Raise IndexError /\
  forall new_state metrics,
    train_step state batch rng_key param_spec <> Ok (new_state, metrics).
Proof.
  intros Hds.
  assert (train_step state batch rng_key param_spec = Raise IndexError) as E
    by (unfold train_step; by rewrite Hds).
  split; [exact E |]. intros new_state metrics. by rewrite E.
Qed.

(** The wrapped train step: in the data-parallel branch the wrapper is given
    four argument specs for the three arguments of the call. *)
Lemma pjit_train_step_data_parallel (cfg : Config) (state : TrainState)
    (text : Batch) (dropout_rng : Key) :
  mp_devices cfg = 1 ->
  pjit_train_step cfg state text dropout_rng = Raise ValueError.
Proof. intros Hmp. unfold pjit_train_step. by rewrite Hmp. Qed.

Lemma pjit_train_step_combined (cfg : Config) (state : TrainState)
    (text : Batch) (dropout_rng : Key) :
  mp_devices cfg <> 1 ->
  pjit_train_step cfg state text dropout_rng
  = train_step state text (Some dropout_rng) (Some mp_param_spec).
Proof.
  intros Hmp. unfold pjit_train_step.
  by destruct (Z.eqb_spec (mp_devices cfg) 1).
Qed.

Lemma pjit_train_step_inv (cfg : Config) (state : TrainState) (text : Batch)
    (dropout_rng : Key) (new_state : TrainState) (metrics : Metrics) :
  pjit_train_step cfg state text dropout_rng = Ok (new_state, metrics) ->
  mp_devices cfg <> 1 /\
  train_step state text (Some dropout_rng) (Some mp_param_spec)
  = Ok (new_state, metrics).
Proof.
  unfold pjit_train_step.
  destruct (Z.eqb_spec (mp_devices cfg) 1); [discriminate | done].
Qed.

Lemma pjit_train_step_step (cfg : Config) (state : TrainState) (text : Batch)
    (dropout_rng : Key) (new_state : TrainState) (metrics : Metrics) :
  pjit_train_step cfg state text dropout_rng = Ok (new_state, metrics) ->
  step new_state = (step state + 1)%N.
Proof.
  intros [_ E]%pjit_train_step_inv. by apply train_step_step in E.
Qed.

(** *** The checkpoint directory after a save *)

Lemma lookup_remove_all {V} (ks : list N) (m : gmap N V) (k : N) :
  remove_all ks m !! k = if decide (k ∈ ks) then None else m !! k.
Proof.
  induction ks as [| a ks IH]; simpl.
  - destruct (decide (k ∈ [])) as [H%elem_of_nil |]; done.
  - destruct (decide (k = a)) as [-> |].
    + rewrite lookup_delete_eq. destruct (decide (a ∈ a :: ks)); set_solver.
    + rewrite lookup_delete_ne by done. rewrite IH.
      destruct (decide (k ∈ ks)) as [Hin | Hin], (decide (k ∈ a :: ks)) as [Hin' | Hin'];
        try done.
      * exfalso. apply Hin'. by right.
      * apply elem_of_cons in Hin' as [? | ?]; done.
Qed.

Lemma index_of_lookup (x : N) (l : list N) :
  x ∈ l -> l !! index_of x l = Some x.
Proof.
  induction l as [| y l IH]; [by intros ?%elem_of_nil |].
  intros Hx. simpl. destruct (decide (x = y)) as [-> |]; [done |].
  simpl. apply IH. by apply elem_of_cons in Hx as [? | ?].
Qed.

Lemma take_S_index_of (x : N) (l : list N) :
  x ∈ l -> take (S (index_of x l)) l = take (index_of x l) l ++ [x].
Proof. intros Hx. by apply take_S_r, index_of_lookup. Qed.

Lemma checkpoint_listing_elem_of (dir : gmap N StateDict) (s k : N) :
  k ∈ checkpoint_listing dir s <-> k ∈ dom dir \/ k = s.
Proof.
  unfold checkpoint_listing, natural_sort. rewrite merge_sort_Permutation.
  case_bool_decide as Hs.
  - rewrite elem_of_elements in *. split; [by left | intros [? | ->]; done].
  - rewrite elem_of_app, elem_of_elements, list_elem_of_singleton. done.
Qed.

Lemma checkpoint_listing_NoDup (dir : gmap N StateDict) (s : N) :
  NoDup (checkpoint_listing dir s).
Proof.
  unfold checkpoint_listing, natural_sort. rewrite merge_sort_Permutation.
  case_bool_decide as Hs; [apply NoDup_elements |].
  apply NoDup_app. split; [apply NoDup_elements |].
  split; [| apply NoDup_singleton].
  intros k Hk ->%list_elem_of_singleton. done.
Qed.

Lemma checkpoint_listing_sorted (dir : gmap N StateDict) (s : N) :
  StronglySorted N.le (checkpoint_listing dir s).
Proof. apply StronglySorted_merge_sort; apply _. Qed.


Lemma checkpoint_listing_split (dir : gmap N StateDict) (s : N) (keep : nat) :
  let files := checkpoint_listing dir s in
  let kept := take (S (index_of s files)) files in
  files = take (length kept - keep) kept ++ retained_files dir s keep
          ++ drop (S (index_of s files)) files.
Proof.
  intros files kept. unfold retained_files. fold files. fold kept.
  rewrite app_assoc, take_drop. unfold kept. by rewrite take_drop.
Qed.

Lemma retained_files_last (dir : gmap N StateDict) (s : N) (keep : nat) :
  (0 < keep)%nat -> last (retained_files dir s keep) = Some s.
Proof.
  intros Hk. unfold retained_files.
  rewrite take_S_index_of by (apply checkpoint_listing_elem_of; by right).
  set (l := take _ _). rewrite length_app. simpl.
  rewrite drop_app_le by lia. apply last_snoc.
Qed.

Lemma retained_files_length (dir : gmap N StateDict) (s : N) (keep : nat) :
  (length (retained_files dir s keep) <= keep)%nat.
Proof. unfold retained_files. rewrite length_drop. lia. Qed.

Lemma retained_files_sorted (dir : gmap N StateDict) (s : N) (keep : nat) :
  StronglySorted N.le (retained_files dir s keep).
Proof.
  pose proof (checkpoint_listing_sorted dir s) as Hs.
  rewrite (checkpoint_listing_split dir s keep) in Hs.
  apply StronglySorted_app_1_r in Hs. by apply StronglySorted_app_1_l in Hs.
Qed.

Lemma retained_files_NoDup (dir : gmap N StateDict) (s : N) (keep : nat) :
  NoDup (retained_files dir s keep).
Proof.
  pose proof (checkpoint_listing_NoDup dir s) as Hs.
  rewrite (checkpoint_listing_split dir s keep) in Hs.
  apply NoDup_app in Hs as (_ & _ & Hs). by apply NoDup_app in Hs as (? & _ & _).
Qed.

Lemma retained_files_elem_of (dir : gmap N StateDict) (s : N) (keep : nat) (k : N) :
  k ∈ retained_files dir s keep -> (k ∈ dom dir \/ k = s) /\ (k <= s)%N.
Proof.
  intros Hk. split.
  - apply checkpoint_listing_elem_of.
    rewrite (checkpoint_listing_split dir s keep). set_solver.
  - destruct keep as [| keep].
    + unfold retained_files in Hk. rewrite Nat.sub_0_r, drop_all in Hk.
      by apply elem_of_nil in Hk.
    + pose proof (retained_files_last dir s (S keep) ltac:(lia)) as Hl.
      apply last_Some in Hl as [l' Hl].
      pose proof (retained_files_sorted dir s (S keep)) as Hs.
      rewrite Hl in Hs, Hk. apply elem_of_app in Hk as [Hk | ->%list_elem_of_singleton].
      * eapply StronglySorted_app_1_elem_of; [done | done | by left].
      * lia.
Qed.

Lemma sorted_NoDup_app_lt (l1 l2 : list N) (a b : N) :
  StronglySorted N.le (l1 ++ l2) -> NoDup (l1 ++ l2) ->
  a ∈ l1 -> b ∈ l2 -> (a < b)%N.
Proof.
  intros Hs Hn Ha Hb.
  assert (a <= b)%N by (eapply StronglySorted_app_1_elem_of; done).
  apply NoDup_app in Hn as (_ & Hn & _). specialize (Hn a Ha).
  assert (a <> b) by (intros ->; done). lia.
Qed.

Lemma checkpoint_listing_newer (dir : gmap N StateDict) (s k : N) :
  k ∈ drop (S (index_of s (checkpoint_listing dir s))) (checkpoint_listing dir s) ->
  (s < k)%N.
Proof.
  intros Hk. set (files := checkpoint_listing dir s) in *.
  assert (s ∈ files) as Hs by (apply checkpoint_listing_elem_of; by right).
  pose proof (checkpoint_listing_sorted dir s) as Hsort.
  pose proof (checkpoint_listing_NoDup dir s) as Hnd. fold files in Hsort, Hnd.
  rewrite <- (take_drop (S (index_of s files)) files) in Hsort, Hnd.
  eapply sorted_NoDup_app_lt; [done | done | | done].
  rewrite take_S_index_of by done. set_solver.
Qed.

Lemma checkpoint_listing_pruned (dir : gmap N StateDict) (s : N) (keep : nat)
    (k k' : N) :
  let kept := take (S (index_of s (checkpoint_listing dir s)))
                   (checkpoint_listing dir s) in
  k ∈ take (length kept - keep) kept -> k' ∈ retained_files dir s keep ->
  (k < k')%N.
Proof.
  intros kept Hk Hk'.
  pose proof (checkpoint_listing_sorted dir s) as Hsort.
  pose proof (checkpoint_listing_NoDup dir s) as Hnd.
  rewrite (checkpoint_listing_split dir s keep) in Hsort, Hnd.
  rewrite app_assoc in Hsort, Hnd.
  apply StronglySorted_app_1_l in Hsort. apply NoDup_app in Hnd as (Hnd & _ & _).
  eapply sorted_NoDup_app_lt; done.
Qed.

(** With [overwrite] the library call never raises, and the directory it
    leaves holds exactly the retained files, each with the contents it had
    once [target] was written under [s]. *)
Lemma flax_save_checkpoint_overwrite (dir : gmap N StateDict) (target : StateDict)
    (s : N) (keep : nat) :
  (0 < keep)%nat ->
  exists dir',
    flax_save_checkpoint dir target s keep true = Ok dir' /\
    forall k, dir' !! k = if decide (k ∈ retained_files dir s keep)
                          then <[s := target]> dir !! k else None.
Proof.
  intros Hkeep. unfold flax_save_checkpoint. simpl.
  rewrite !andb_false_r. fold (checkpoint_listing dir s).
  set (files := checkpoint_listing dir s).
  set (kept := take (S (index_of s files)) files).
  set (newer := drop (S (index_of s files)) files).
  assert ((if (keep <? length kept)%nat then slice_to_neg kept keep else [])
          = take (length kept - keep) kept) as ->.
  { destruct (Nat.ltb_spec keep (length kept)).
    - unfold slice_to_neg. destruct keep; [lia | done].
    - replace (length kept - keep)%nat with 0%nat by lia. done. }
  eexists. split; [done |]. intros k.
  rewrite !lookup_remove_all.
  pose proof (checkpoint_listing_split dir s keep) as Hsplit.
  pose proof (checkpoint_listing_NoDup dir s) as Hnd.
  fold files kept newer in Hsplit. fold files in Hnd.
  set (old := take (length kept - keep) kept) in *.
  set (R := retained_files dir s keep) in *.
  rewrite Hsplit in Hnd.
  apply NoDup_app in Hnd as (_ & Hold & Hnd).
  apply NoDup_app in Hnd as (_ & Hnew & _).
  destruct (decide (k ∈ R)) as [HR | HR].
  - rewrite decide_False by (intros ?; eapply Hold; [done | set_solver]).
    rewrite decide_False by (intros ?; eapply Hnew; done). done.
  - destruct (decide (k ∈ old)); [done |].
    destruct (decide (k ∈ newer)); [done |].
    assert (k ∉ files) as Hk.
    { rewrite Hsplit, !elem_of_app. tauto. }
    unfold files in Hk. rewrite checkpoint_listing_elem_of in Hk.
    rewrite lookup_insert_ne by (intros ->; tauto).
    apply not_elem_of_dom. tauto.
Qed.


(** *** save_checkpoint *)

Lemma listdir_set_ckpt_dir (sto : Storage) (workdir : string)
    (dir : gmap N StateDict) :
  listdir (set_ckpt_dir sto workdir dir) workdir = dir.
Proof. unfold listdir, set_ckpt_dir. simpl. by rewrite lookup_insert_eq. Qed.

(** On rank 0 the call returns, and the destination directory is the one
    the library call leaves. *)
Lemma save_checkpoint_rank0 (state : TrainState) (workdir : string)
    (bucket : option string) (client : option unit) (sto : Storage) :
  exists sto' dir',
    save_checkpoint 0 state workdir bucket client sto = Ok sto' /\
    flax_save_checkpoint (listdir sto workdir) (to_state_dict state)
      (step state) 3 true = Ok dir' /\
    listdir sto' workdir = dir' /\
    match client with
    | Some _ =>
        bucket_blobs sto' !! (bucket, "checkpoints/opt_state.msgpack")
        = Some (opt_state state)
    | None =>
        files sto' !! (workdir ++ "/opt_state.msgpack")%string = Some (opt_state state)
    end.
Proof.
  destruct (flax_save_checkpoint_overwrite (listdir sto workdir)
              (to_state_dict state) (step state) 3 ltac:(lia)) as (dir' & E & _).
  unfold save_checkpoint. simpl. rewrite E. simpl.
  destruct client as [[] |]; eexists _, dir'; (split; [done |]); (split; [done |]);
    simpl; (split; [apply listdir_set_ckpt_dir |]); by rewrite lookup_insert_eq.
Qed.

Lemma save_checkpoint_retention (state : TrainState) (workdir : string)
    (bucket : option string) (client : option unit) (sto sto' : Storage) :
  save_checkpoint 0 state workdir bucket client sto = Ok sto' ->
  listdir sto' workdir !! step state = Some (to_state_dict state) /\
  (size (listdir sto' workdir) <= 3)%nat /\
  (forall k, k ∈ dom (listdir sto' workdir) ->
             (k <= step state)%N /\ (k ∈ dom (listdir sto workdir) \/ k = step state)) /\
  (forall k k', k ∈ dom (listdir sto workdir) -> (k <= step state)%N ->
                k ∉ dom (listdir sto' workdir) ->
                k' ∈ dom (listdir sto' workdir) -> (k < k')%N).
Proof.
  intros Hsave.
  destruct (save_checkpoint_rank0 state workdir bucket client sto)
    as (sto1 & dir' & E1 & E2 & E3 & _).
  rewrite E1 in Hsave. injection Hsave as <-. rewrite E3. clear E1 E3.
  destruct (flax_save_checkpoint_overwrite (listdir sto workdir)
              (to_state_dict state) (step state) 3 ltac:(lia)) as (dir1 & E & Hl).
  rewrite E in E2. injection E2 as <-. clear E.
  set (dir := listdir sto workdir) in *. set (s := step state) in *.
  pose (R := retained_files dir s 3). fold R in Hl.
  assert (dom dir1 = list_to_set R) as Hdom.
  { apply set_eq. intros k. rewrite elem_of_dom, elem_of_list_to_set, Hl.
    destruct (decide (k ∈ R)) as [HR | HR].
    - split; [done | intros _].
      destruct (retained_files_elem_of _ _ _ _ HR) as [[Hd | ->] _].
      + destruct (decide (s = k)) as [-> |].
        * rewrite lookup_insert_eq. by eexists.
        * rewrite lookup_insert_ne by done. by apply elem_of_dom.
      + rewrite lookup_insert_eq. by eexists.
    - split; [by intros [? ?] | done]. }
  assert (s ∈ R) as HsR.
  { pose proof (retained_files_last dir s 3 ltac:(lia)) as Hlast.
    apply last_Some in Hlast as [l' Hlast]. unfold R. rewrite Hlast.
    apply elem_of_app. right. by left. }
  split; [| split; [| split]].
  - rewrite Hl, decide_True by done. apply lookup_insert_eq.
  - rewrite <- size_dom, Hdom.
    rewrite size_list_to_set by apply retained_files_NoDup.
    apply retained_files_length.
  - intros k. rewrite Hdom, elem_of_list_to_set. intros Hk.
    destruct (retained_files_elem_of _ _ _ _ Hk). done.
  - intros k k'. rewrite Hdom, !elem_of_list_to_set. intros Hk Hle HkR Hk'.
    assert (k ∈ checkpoint_listing dir s) as Hin
      by (apply checkpoint_listing_elem_of; by left).
    rewrite (checkpoint_listing_split dir s 3) in Hin.
    apply elem_of_app in Hin as [Hin | Hin].
    + eapply checkpoint_listing_pruned; done.
    + apply elem_of_app in Hin as [Hin | Hin]; [done |].
      apply checkpoint_listing_newer in Hin. lia.
Qed.

(** C7: on a process whose rank is not 0, save_checkpoint returns with the
    durable storage exactly as it found it. *)
Theorem save_checkpoint_rank_guard (rank : Z) (state : TrainState)
    (workdir : string) (bucket : option string) (client : option unit)
    (sto : Storage) :
  rank <> 0 -> save_checkpoint rank state workdir bucket client sto = Ok sto.
Proof.
  intros Hrank. unfold save_checkpoint.
  by destruct (Z.eqb_spec rank 0).
Qed.

(** C9: every save_checkpoint call on rank 0 returns, leaves the primary
    checkpoint of the state (which carries opt_state inline) in the
    destination directory, and also writes opt_state on its own: to the
    bucket blob checkpoints/opt_state.msgpack when a client is passed,
    otherwise to the file opt_state.msgpack under the working directory. *)
Theorem save_checkpoint_writes_opt_state (state : TrainState) (workdir : string)
    (bucket : option string) (client : option unit) (sto : Storage) :
  exists sto',
    save_checkpoint 0 state workdir bucket client sto = Ok sto' /\
    listdir sto' workdir !! step state = Some (to_state_dict state) /\
    sd_opt_state (to_state_dict state) = opt_state state /\
    match client with
    | Some _ =>
        bucket_blobs sto' !! (bucket, "checkpoints/opt_state.msgpack")
        = Some (opt_state state)
    | None =>
        files sto' !! (workdir ++ "/opt_state.msgpack")%string = Some (opt_state state)
    end.
Proof.
  destruct (save_checkpoint_rank0 state workdir bucket client sto)
    as (sto' & dir' & E & _ & _ & Hopt).
  exists sto'. split; [done |].
  destruct (save_checkpoint_retention _ _ _ _ _ _ E) as (Hl & _).
  done.
Qed.

(** *** Which checkpoints survive a run of save cycles *)

Lemma lastn_app_lastn {A} (n : nat) (l l' : list A) :
  lastn n (lastn n l ++ l') = lastn n (l ++ l').
Proof.
  unfold lastn. rewrite !length_app, length_drop.
  rewrite !drop_app, drop_drop, length_drop.
  f_equal; f_equal; lia.
Qed.

Lemma lastn_length {A} (n : nat) (l : list A) : (length (lastn n l) <= n)%nat.
Proof. unfold lastn. rewrite length_drop. lia. Qed.

Lemma lastn_app_ge {A} (n : nat) (l l' : list A) :
  (n <= length l')%nat -> lastn n (l ++ l') = lastn n l'.
Proof.
  intros Hn. unfold lastn. rewrite length_app, drop_app.
  rewrite drop_ge by lia. simpl. f_equal. lia.
Qed.

Lemma sorted_list_unique (l1 l2 : list N) :
  StronglySorted N.le l1 -> StronglySorted N.le l2 -> NoDup l1 -> NoDup l2 ->
  (forall k, k ∈ l1 <-> k ∈ l2) -> l1 = l2.
Proof.
  intros S1 S2 N1 N2 Hiff. apply (StronglySorted_unique N.le); [done | done |].
  by apply NoDup_Permutation.
Qed.

Lemma listed_steps_elem_of (dir : gmap N StateDict) (k : N) :
  k ∈ listed_steps dir <-> k ∈ dom dir.
Proof.
  unfold listed_steps, natural_sort.
  by rewrite merge_sort_Permutation, elem_of_elements.
Qed.

Lemma listed_steps_NoDup (dir : gmap N StateDict) : NoDup (listed_steps dir).
Proof.
  unfold listed_steps, natural_sort. rewrite merge_sort_Permutation.
  apply NoDup_elements.
Qed.

Lemma listed_steps_sorted (dir : gmap N StateDict) :
  StronglySorted N.le (listed_steps dir).
Proof. apply StronglySorted_merge_sort; apply _. Qed.

Lemma listed_steps_length (dir : gmap N StateDict) :
  length (listed_steps dir) = size dir.
Proof.
  unfold listed_steps, natural_sort. rewrite merge_sort_Permutation.
  by rewrite <- size_dom.
Qed.

Lemma snoc_sorted (l : list N) (s : N) :
  StronglySorted N.le l -> (forall k, k ∈ l -> (k < s)%N) ->
  StronglySorted N.le (l ++ [s]).
Proof.
  intros Hl Hlt. apply StronglySorted_app_2; [| done | repeat constructor].
  intros x1 x2 H1 ->%list_elem_of_singleton. specialize (Hlt _ H1). lia.
Qed.

Lemma index_of_snoc (l : list N) (s : N) :
  s ∉ l -> index_of s (l ++ [s]) = length l.
Proof.
  induction l as [| y l IH]; simpl; intros Hs.
  - by rewrite decide_True.
  - rewrite decide_False by set_solver. f_equal. apply IH. set_solver.
Qed.

(** Saving a step newer than everything in the directory keeps the last
    three of the old listing followed by the new step. *)
Lemma retained_files_newest (dir : gmap N StateDict) (s : N) :
  (forall k, k ∈ dom dir -> (k < s)%N) ->
  retained_files dir s 3 = lastn 3 (listed_steps dir ++ [s]).
Proof.
  intros Hlt.
  assert (s ∉ listed_steps dir) as Hs.
  { rewrite listed_steps_elem_of. intros H%Hlt. lia. }
  assert (checkpoint_listing dir s = listed_steps dir ++ [s]) as E.
  { apply sorted_list_unique.
    - apply checkpoint_listing_sorted.
    - apply snoc_sorted; [apply listed_steps_sorted |].
      intros k. rewrite listed_steps_elem_of. apply Hlt.
    - apply checkpoint_listing_NoDup.
    - apply NoDup_app. split; [apply listed_steps_NoDup |].
      split; [| apply NoDup_singleton].
      by intros k Hk ->%list_elem_of_singleton.
    - intros k. rewrite checkpoint_listing_elem_of, elem_of_app,
        listed_steps_elem_of, list_elem_of_singleton. done. }
  unfold retained_files. rewrite E, index_of_snoc by done.
  rewrite take_ge by (rewrite length_app; simpl; lia). done.
Qed.

Lemma save_checkpoint_listed_steps (state : TrainState) (workdir : string)
    (bucket : option string) (client : option unit) (sto sto' : Storage) :
  save_checkpoint 0 state workdir bucket client sto = Ok sto' ->
  listed_steps (listdir sto' workdir)
  = retained_files (listdir sto workdir) (step state) 3.
Proof.
  intros Hsave.
  destruct (save_checkpoint_rank0 state workdir bucket client sto)
    as (sto1 & dir' & E1 & E2 & E3 & _).
  rewrite E1 in Hsave. injection Hsave as <-. rewrite E3.
  destruct (flax_save_checkpoint_overwrite (listdir sto workdir)
              (to_state_dict state) (step state) 3 ltac:(lia)) as (dir1 & E & Hl).
  rewrite E in E2. injection E2 as <-.
  apply sorted_list_unique.
  - apply listed_steps_sorted.
  - apply retained_files_sorted.
  - apply listed_steps_NoDup.
  - apply retained_files_NoDup.
  - intros k. rewrite listed_steps_elem_of, elem_of_dom, Hl.
    destruct (decide (k ∈ _)) as [HR | HR].
    + split; [done | intros _].
      destruct (retained_files_elem_of _ _ _ _ HR) as [[Hd | ->] _].
      * destruct (decide (step state = k)) as [-> |].
        -- rewrite lookup_insert_eq. by eexists.
        -- rewrite lookup_insert_ne by done. by apply elem_of_dom.
      * rewrite lookup_insert_eq. by eexists.
    + split; [by intros [? ?] | done].
Qed.

Lemma save_cycles_listed_steps (workdir : string) (bucket : option string)
    (client : option unit) (states : list TrainState) (sto sto' : Storage) :
  StronglySorted N.lt (map step states) ->
  (forall k st, k ∈ dom (listdir sto workdir) -> st ∈ states -> (k < step st)%N) ->
  (size (listdir sto workdir) <= 3)%nat ->
  save_cycles 0 workdir bucket client states sto = Ok sto' ->
  listed_steps (listdir sto' workdir)
  = lastn 3 (listed_steps (listdir sto workdir) ++ map step states).
Proof.
  revert sto. induction states as [| st states IH]; intros sto Hsorted Hlt Hsize.
  - simpl. intros [= <-]. rewrite app_nil_r. unfold lastn.
    rewrite listed_steps_length.
    by replace (size (listdir sto workdir) - 3)%nat with 0%nat by lia.
  - simpl. destruct (save_checkpoint 0 st workdir bucket client sto)
      as [sto1 |] eqn:E1; [| discriminate]. simpl. intros Hrest.
    apply StronglySorted_cons in Hsorted as [Hhd Hsorted].
    pose proof (save_checkpoint_listed_steps _ _ _ _ _ _ E1) as Hkeys.
    rewrite retained_files_newest in Hkeys
      by (intros k Hk; apply (Hlt k st Hk); by left).
    destruct (save_checkpoint_retention _ _ _ _ _ _ E1) as (_ & Hsz & Hle & _).
    rewrite (IH sto1 Hsorted); [| | done | done].
    + rewrite Hkeys. rewrite lastn_app_lastn. by rewrite <- app_assoc.
    + intros k st' Hk Hst'. destruct (Hle k Hk) as [Hks _].
      assert (step st < step st')%N; [| lia].
      rewrite Forall_forall in Hhd. apply Hhd, list_elem_of_fmap. eauto.
Qed.

Lemma save_cycles_snoc (rank : Z) (workdir : string) (bucket : option string)
    (client : option unit) (states : list TrainState) (state : TrainState)
    (sto : Storage) :
  save_cycles rank workdir bucket client (states ++ [state]) sto =
  do sto' <- save_cycles rank workdir bucket client states sto;
  save_checkpoint rank state workdir bucket client sto'.
Proof.
  revert sto. induction states as [| st states IH]; intros sto; simpl.
  - by destruct (save_checkpoint _ _ _ _ _ _).
  - destruct (save_checkpoint _ st _ _ _ _); simpl; [apply IH | done].
Qed.

Lemma save_cycles_rank0_succeeds (workdir : string) (bucket : option string)
    (client : option unit) (states : list TrainState) (sto : Storage) :
  succeeds (save_cycles 0 workdir bucket client states sto).
Proof.
  revert sto. induction states as [| st states IH]; intros sto; simpl.
  - by eexists.
  - destruct (save_checkpoint_rank0 st workdir bucket client sto)
      as (sto' & _ & -> & _). simpl. apply IH.
Qed.

(** C6: after more than three save cycles on one destination the directory
    holds at most three primary checkpoints; the last one saved is among
    them and none of them is newer than it; and when the saved steps
    increase from cycle to cycle, the directory holds exactly the
    checkpoints of the last three cycles. *)
Theorem checkpoint_retention (workdir : string) (bucket : option string)
    (client : option unit) (states : list TrainState) (sto : Storage) :
  (3 < length states)%nat ->
  exists sto' latest,
    save_cycles 0 workdir bucket client states sto = Ok sto' /\
    last states = Some latest /\
    (size (listdir sto' workdir) <= 3)%nat /\
    listdir sto' workdir !! step latest = Some (to_state_dict latest) /\
    (forall k, k ∈ dom (listdir sto' workdir) -> (k <= step latest)%N) /\
    (StronglySorted N.lt (map step states) ->
     listed_steps (listdir sto' workdir) = map step (lastn 3 states)).
Proof.
  intros Hlen.
  destruct (save_cycles_rank0_succeeds workdir bucket client states sto)
    as [sto' Hsto'].
  assert (exists latest, last states = Some latest) as [latest Hlast].
  { apply last_is_Some. intros ->. simpl in Hlen. lia. }
  exists sto', latest. split; [done |]. split; [done |].
  assert ((size (listdir sto' workdir) <= 3)%nat /\
          listdir sto' workdir !! step latest = Some (to_state_dict latest) /\
          (forall k, k ∈ dom (listdir sto' workdir) -> (k <= step latest)%N))
    as (H1 & H2 & H3).
  { apply last_Some in Hlast as [front ->].
    rewrite save_cycles_snoc in Hsto'.
    destruct (save_cycles 0 workdir bucket client front sto) as [sto1 |];
      [| done]. simpl in Hsto'.
    destruct (save_checkpoint_retention _ _ _ _ _ _ Hsto') as (? & ? & Hle & _).
    split; [done |]. split; [done |]. intros k Hk. by apply Hle. }
  split; [done |]. split; [done |]. split; [done |].
  intros Hsorted. destruct states as [| st rest]; [simpl in Hlen; lia |].
  simpl in Hlen, Hsto', Hsorted.
  destruct (save_checkpoint 0 st workdir bucket client sto) as [sto1 |] eqn:E1;
    [| discriminate]. simpl in Hsto'.
  apply StronglySorted_cons in Hsorted as [Hhd Hsorted].
  destruct (save_checkpoint_retention _ _ _ _ _ _ E1) as (_ & Hsz & Hle & _).
  rewrite (save_cycles_listed_steps workdir bucket client rest sto1 sto' Hsorted);
    [| | done | done].
  - rewrite lastn_app_ge by (rewrite length_map; lia).
    change (st :: rest) with ([st] ++ rest).
    rewrite (lastn_app_ge 3 [st] rest) by lia.
    unfold lastn. by rewrite fmap_drop, length_map.
  - intros k st' Hk Hst'. destruct (Hle k Hk) as [Hks _].
    assert (step st < step st')%N; [| lia].
    rewrite Forall_forall in Hhd. apply Hhd, list_elem_of_fmap. eauto.
Qed.


(** *** restore_checkpoint and state construction *)

Lemma restore_checkpoint_empty (state : TrainState) (workdir : string)
    (sto : Storage) :
  listdir sto workdir = ∅ -> restore_checkpoint state workdir sto = state.
Proof.
  intros E. unfold restore_checkpoint, flax_restore_checkpoint. rewrite E.
  by rewrite dom_empty_L, elements_empty.
Qed.

Lemma build_state_resume_step (cfg : Config) (env : Env) (stb : bool)
    (bucket : option string) (rng irng : Key) (sto : Storage)
    (state : TrainState) (rs : option Z) :
  build_state cfg env stb bucket rng irng sto = Ok (state, rs) ->
  rs = if resume env then Some (Z.of_N (step state)) else None.
Proof.
  unfold build_state.
  destruct (mp_devices cfg =? 1), (resume env); try by intros [= <- <-].
  destruct stb; simpl.
  - destruct (download_blob _ _ _) as [o |]; [| discriminate]. simpl.
    by intros [= <- <-].
  - destruct (read_file _ _) as [o |]; [| discriminate]. simpl.
    by intros [= <- <-].
Qed.

Lemma build_state_fresh (cfg : Config) (env : Env) (stb : bool)
    (bucket : option string) (rng irng : Key) (sto sto2 : Storage) :
  resume env = false ->
  build_state cfg env stb bucket rng irng sto
  = build_state cfg env stb bucket rng irng sto2.
Proof. intros E. unfold build_state. by rewrite E. Qed.

Lemma startup_resume_step (cfg : Config) (env : Env) (sto : Storage) (ini : Init) :
  startup cfg env sto = Ok ini ->
  resume_step ini
  = if resume env then Some (Z.of_N (step (init_state ini))) else None.
Proof.
  unfold startup.
  destruct (floordiv (num_devices env) _) as [nh |]; [| discriminate]. simpl.
  destruct (check_mesh_shape _ _ _) as [[] |]; [| discriminate]. simpl.
  destruct (random_split PRNGKey0) as [rng irng].
  destruct (build_state _ _ _ _ _ _ _) as [[state rs] |] eqn:Hb; [| discriminate].
  simpl. apply build_state_resume_step in Hb.
  match goal with |- context [bind ?m _] => destruct m as [[c s] |] end;
    [| discriminate]. simpl.
  destruct (floordiv (num_local_devices env) _) as [ph |]; [| discriminate]. simpl.
  destruct (floordiv (batch_size cfg) _) as [lb |]; [| discriminate]. simpl.
  match goal with |- context [if ?c then _ else _] => destruct c end;
    [discriminate |].
  by intros [= <-].
Qed.

(** C4 (amended): restore_checkpoint hands back the template state when
    the source directory holds no checkpoint, so a resume request in the
    pure data-parallel path does not fail: state construction returns the
    freshly built state with resume_step equal to its step.  With the
    resume flag unset, state construction does not depend on the storage
    at all (no restore is attempted). *)
Theorem resume_without_checkpoint (cfg : Config) (env : Env) (stb : bool)
    (bucket : option string) (rng irng : Key) (sto : Storage) :
  (forall state workdir,
      listdir sto workdir = ∅ -> restore_checkpoint state workdir sto = state) /\
  (resume env = true -> mp_devices cfg = 1 ->
   listdir sto (if stb then gs_workdir cfg else checkpoint_directory cfg) = ∅ ->
   build_state cfg env stb bucket rng irng sto
   = Ok (create_train_state irng,
         Some (Z.of_N (step (create_train_state irng))))) /\
  (resume env = false ->
   forall sto2,
     build_state cfg env stb bucket rng irng sto
     = build_state cfg env stb bucket rng irng sto2).
Proof.
  split; [| split].
  - intros state workdir. apply restore_checkpoint_empty.
  - intros Hres Hmp Hdir. unfold build_state. rewrite Hres, Hmp. simpl.
    destruct stb; by rewrite restore_checkpoint_empty.
  - intros Hres sto2. by apply build_state_fresh.
Qed.

(** *** The loop *)

Lemma process_microbatch_step (cfg : Config) (env : Env) (ini : Init)
    (vl : list Batch) (i : Z) (text : Batch) (ls ls' : LoopState) :
  process_microbatch cfg env ini vl i text ls = Ok ls' ->
  step (ls_state ls') = (step (ls_state ls) + 1)%N.
Proof.
  unfold process_microbatch.
  destruct (random_split (ls_rng ls)) as [rng dropout_rng].
  destruct (pjit_train_step _ _ _ _) as [[state metrics] |] eqn:Ht;
    [| discriminate].
  apply pjit_train_step_step in Ht. simpl.
  repeat
    (match goal with
     | |- context [bind ?m _] => destruct m; simpl; [| discriminate]
     | |- context [if ?c then _ else _] => destruct c; simpl
     end);
    by intros [= <-].
Qed.

(** *** The first microbatch of a fresh run *)


Lemma eval_step_dom (state : TrainState) (b : Batch) :
  dom (eval_step state b)
  = ({["Validation LM PPL"; "Validation LM Loss"]} : gset string).
Proof.
  unfold eval_step. cbv zeta. rewrite dom_insert_L, dom_singleton_L. set_solver.
Qed.






(** *** Further properties of the mesh assertion and the shard split *)

(** X1: for a positive mesh product the assertion accepts exactly the device
    counts from the product up to, but excluding, twice the product; a zero
    product raises ZeroDivisionError before the assertion is evaluated. *)
Theorem check_mesh_shape_outcomes (n dp mp : Z) :
  (dp * mp = 0 -> check_mesh_shape n dp mp = Raise ZeroDivisionError) /\
  (0 < dp * mp ->
   (check_mesh_shape n dp mp = Ok tt <-> dp * mp <= n < 2 * (dp * mp)) /\
   (~ (dp * mp <= n < 2 * (dp * mp)) ->
    check_mesh_shape n dp mp = Raise AssertionError)).
Proof.
  split.
  - intros E. unfold check_mesh_shape, floordiv. by rewrite E.
  - intros Hp.
    assert (n / (dp * mp) = 1 <-> dp * mp <= n < 2 * (dp * mp)) as Hq.
    { split.
      - intros E. pose proof (Z.mul_div_le n (dp * mp) Hp).
        pose proof (Z.mul_succ_div_gt n (dp * mp) Hp). rewrite E in *. lia.
      - intros [Hlo Hhi]. symmetry. apply (Z.div_unique n (dp * mp) 1 (n - dp * mp)); lia. }
    split.
    + rewrite check_mesh_shape_spec, Hq. intuition lia.
    + intros Hout. unfold check_mesh_shape. rewrite floordiv_ok by lia.
      cbn [bind]. unfold py_assert.
      destruct (Z.eqb_spec (n / (dp * mp)) 1) as [E | E]; [| done].
      apply Hq in E. tauto.
Qed.

Lemma islice_lookup {A} (start step : nat) (src : list A) (k : nat) :
  (0 < step)%nat -> islice start step src !! k = src !! (start + k * step)%nat.
Proof.
  intros Hstep. revert start k.
  induction src as [| s rest IH]; intros start k; [done |].
  destruct start as [| m]; simpl.
  - destruct k as [| k]; [done |]. simpl. rewrite IH.
    destruct step as [| st]; [lia |]. simpl. f_equal; lia.
  - apply IH.
Qed.

(** X2: with more than one host, host h reads exactly the shards at
    positions h, h + n, h + 2n, ... of the shard list, so the shard at
    position j goes to host j mod n, as its entry j / n; with one host (or
    fewer) the whole list is read. *)
Theorem split_by_jax_process_lookup {A} (host_id num_process : Z) (src : list A) :
  (num_process <= 1 -> split_by_jax_process host_id num_process src = Ok src) /\
  (1 < num_process -> 0 <= host_id ->
   exists mine,
     split_by_jax_process host_id num_process src = Ok mine /\
     forall k, mine !! k
               = src !! (Z.to_nat host_id + k * Z.to_nat num_process)%nat) /\
  (1 < num_process ->
   forall j : nat,
   exists mine,
     split_by_jax_process (Z.of_nat j mod num_process) num_process src = Ok mine /\
     mine !! (j / Z.to_nat num_process)%nat = src !! j).
Proof.
  unfold split_by_jax_process. split; [| split].
  - intros Hn. by destruct (Z.ltb_spec 1 num_process); [lia |].
  - intros Hn Hh. destruct (Z.ltb_spec 1 num_process); [| lia].
    destruct (Z.ltb_spec host_id 0); [lia |].
    eexists. split; [done |]. intros k. apply islice_lookup. lia.
  - intros Hn j. destruct (Z.ltb_spec 1 num_process); [| lia].
    pose proof (Z.mod_pos_bound (Z.of_nat j) num_process ltac:(lia)) as Hb.
    destruct (Z.ltb_spec (Z.of_nat j mod num_process) 0); [lia |].
    eexists. split; [done |]. rewrite islice_lookup by lia. f_equal.
    set (n := Z.to_nat num_process).
    assert (Z.to_nat (Z.of_nat j mod num_process) = j mod n)%nat as ->.
    { replace num_process with (Z.of_nat n) by lia.
      rewrite <- Nat2Z.inj_mod. lia. }
    pose proof (Nat.div_mod_eq j n). lia.
Qed.

(** *** What a save leaves alone, and what a restore finds after it *)

Lemma string_length_append (s1 s2 : string) :
  String.length (s1 ++ s2) = (String.length s1 + String.length s2)%nat.
Proof. induction s1 as [| c s1 IH]; simpl; [done | by rewrite IH]. Qed.

Lemma gs_workdir_longer (cfg : Config) :
  (String.length (checkpoint_directory cfg) < String.length (gs_workdir cfg))%nat.
Proof. unfold gs_workdir. rewrite !string_length_append. simpl. lia. Qed.

Lemma save_checkpoint_elsewhere (rank : Z) (state : TrainState) (workdir : string)
    (bucket : option string) (client : option unit) (sto sto' : Storage) :
  save_checkpoint rank state workdir bucket client sto = Ok sto' ->
  (forall d, d <> workdir -> listdir sto' d = listdir sto d) /\
  (forall p, p <> (workdir ++ "/opt_state.msgpack")%string ->
             files sto' !! p = files sto !! p) /\
  (forall b, b <> (bucket, "checkpoints/opt_state.msgpack") ->
             bucket_blobs sto' !! b = bucket_blobs sto !! b).
Proof.
  unfold save_checkpoint. destruct (rank =? 0); [| by intros [= <-]].
  destruct (flax_save_checkpoint _ _ _ _ _) as [dir |]; [| discriminate].
  cbn [bind]. destruct client as [[] |]; intros [= <-];
    (split; [| split]); intros x Hx; unfold listdir; simpl;
    rewrite ?lookup_insert_ne by done; done.
Qed.

Lemma restore_after_save (state template : TrainState) (workdir : string)
    (bucket : option string) (client : option unit) (sto sto' : Storage) :
  save_checkpoint 0 state workdir bucket client sto = Ok sto' ->
  restore_checkpoint template workdir sto'
  = from_state_dict template (to_state_dict state).
Proof.
  intros Hsave. unfold restore_checkpoint, flax_restore_checkpoint.
  fold (listed_steps (listdir sto' workdir)).
  rewrite (save_checkpoint_listed_steps _ _ _ _ _ _ Hsave).
  rewrite retained_files_last by lia.
  destruct (save_checkpoint_retention _ _ _ _ _ _ Hsave) as (-> & _). done.
Qed.



(** X6: in the combined path the loop always checkpoints under
    gs://<bucket_path>/<checkpoint_directory>, so a run that does not use a
    bucket writes nothing a later resume reads: state construction on a
    resume without bucket gives the same result after the checkpoint as
    before it. *)
Theorem combined_checkpoint_unseen_by_local_resume (cfg : Config) (env env' : Env)
    (ini : Init) (state : TrainState) (bucket : option string) (rng irng : Key)
    (sto sto' : Storage) :
  1 < mp_devices cfg ->
  checkpoint_state cfg env ini state sto = Ok sto' ->
  build_state cfg env' false bucket rng irng sto'
  = build_state cfg env' false bucket rng irng sto.
Proof.
  intros Hmp. unfold checkpoint_state.
  destruct (Z.ltb_spec 1 (mp_devices cfg)); [| lia]. intros Hsave.
  destruct (save_checkpoint_elsewhere _ _ _ _ _ _ _ Hsave) as (Hdir & Hfile & _).
  pose proof (gs_workdir_longer cfg) as Hlen.
  assert (listdir sto' (checkpoint_directory cfg)
          = listdir sto (checkpoint_directory cfg)) as Hd.
  { apply Hdir. intros E. rewrite E in Hlen. lia. }
  assert (files sto' !! (checkpoint_directory cfg ++ "/opt_state.msgpack")%string
          = files sto !! (checkpoint_directory cfg ++ "/opt_state.msgpack")%string)
    as Hf.
  { apply Hfile. intros E.
    apply (f_equal String.length) in E. rewrite !string_length_append in E. lia. }
  unfold build_state, restore_checkpoint, read_file.
  destruct (Z.eqb_spec (mp_devices cfg) 1); [lia |].
  by rewrite Hd, Hf.
Qed.

Lemma apply_gradients_callables (s : TrainState) (g : PyTree) :
  apply_fn (apply_gradients s g) = apply_fn s /\
  tx (apply_gradients s g) = tx s /\
  dynamic_scale (apply_gradients s g) = dynamic_scale s.
Proof. unfold apply_gradients. by destruct (tx_update _ _ _ _). Qed.

(** X8: whatever branch it takes, a train_step that returns has advanced
    the step counter by one, kept apply_fn and tx, and left loss scaling
    enabled or disabled as it was; its metrics are the loss, the perplexity
    as the exponential of that loss and, exactly when scaling is enabled,
    the loss scale of the returned state.  Without loss scaling train_step
    always returns. *)
Theorem train_step_invariants (state : TrainState) (batch : Batch)
    (rng_key : option Key) (param_spec : option Spec) :
  (forall new_state metrics,
      train_step state batch rng_key param_spec = Ok (new_state, metrics) ->
      step new_state = (step state + 1)%N /\
      apply_fn new_state = apply_fn state /\
      tx new_state = tx state /\
      (is_Some (dynamic_scale new_state) <-> is_Some (dynamic_scale state)) /\
      (exists loss,
          metrics !! "Train LM Loss" = Some loss /\
          metrics !! "Train LM PPL" = Some (jnp_exp loss)) /\
      metrics !! "Loss Scale"
      = (fun ds' => float_of_scale (scale ds')) <$> dynamic_scale new_state /\
      forall k, is_Some (metrics !! k) ->
                k = "Train LM Loss" \/ k = "Train LM PPL" \/ k = "Loss Scale") /\
  (dynamic_scale state = None ->
   succeeds (train_step state batch rng_key param_spec)).
Proof.
  split.
  - intros new_state metrics Hstep.
    pose proof (train_step_step _ _ _ _ _ _ Hstep) as Hs.
    split; [done |]. revert Hstep. unfold train_step.
    destruct (dynamic_scale state) as [ds |] eqn:Hds.
    + discriminate.
    + destruct (value_and_grad _ _) as [loss grads]. intros [= <- <-].
      match goal with
      | |- context [apply_gradients state ?g] =>
          destruct (apply_gradients_callables state g) as (-> & -> & ->)
      end.
      rewrite Hds.
      split; [done |]. split; [done |]. split; [done |].
      split; [exists loss; split |]; [| | split].
      * rewrite !lookup_insert_ne by done. by rewrite lookup_singleton_eq.
      * by rewrite lookup_insert_eq.
      * rewrite lookup_insert_ne by done. by rewrite lookup_singleton_ne.
      * intros k [v Hk].
        destruct (decide (k = "Train LM PPL")) as [-> |]; [tauto |].
        destruct (decide (k = "Train LM Loss")) as [-> |]; [tauto |].
        rewrite !lookup_insert_ne, lookup_singleton_ne in Hk by done. done.
  - intros Hds. unfold train_step. rewrite Hds.
    destruct (value_and_grad _ _) as [loss grads]. by eexists.
Qed.

(** *** How many microbatches the loop trains *)

Lemma budget_exceeded (cfg : Config) (i : Z) :
  0 < gradient_accumulation_steps cfg ->
  (total_steps cfg <? i / gradient_accumulation_steps cfg) = true <->
  (total_steps cfg + 1) * gradient_accumulation_steps cfg <= i.
Proof.
  intros Hga. rewrite Z.ltb_lt. split.
  - intros Hlt.
    pose proof (Z.mul_div_le i _ Hga). nia.
  - intros Hle.
    assert (total_steps cfg + 1 <= i / gradient_accumulation_steps cfg); [| lia].
    apply Z.div_le_lower_bound; lia.
Qed.

Lemma train_loop_count (cfg : Config) (env : Env) (ini : Init) (vl tl : list Batch)
    (i : Z) (ls ls' : LoopState) (b : bool) :
  0 < gradient_accumulation_steps cfg ->
  train_loop cfg env ini vl i tl ls = Ok (b, ls') ->
  let budget := (total_steps cfg + 1) * gradient_accumulation_steps cfg in
  let first := match resume_step ini with
               | Some r => Z.max i (r + 1)
               | None => i
               end in
  Z.of_N (step (ls_state ls'))
  = Z.of_N (step (ls_state ls))
    + Z.max 0 (Z.min (i + Z.of_nat (length tl)) budget - first) /\
  (b = true <-> Z.max i budget < i + Z.of_nat (length tl)).
Proof.
  intros Hga. cbv zeta. revert i ls.
  induction tl as [| text rest IH]; intros i ls.
  - simpl. intros [= <- <-]. split; [| split; [done | lia]].
    destruct (resume_step ini); lia.
  - cbn [train_loop length]. unfold loop_body. rewrite floordiv_ok by lia.
    cbn [bind]. pose proof (budget_exceeded cfg i Hga) as Hb.
    destruct (total_steps cfg <? i / gradient_accumulation_steps cfg).
    + cbn [bind]. intros [= <- <-]. destruct Hb as [Hb _].
      specialize (Hb eq_refl). split; [| split; [lia | done]].
      destruct (resume_step ini); lia.
    + assert (i < (total_steps cfg + 1) * gradient_accumulation_steps cfg) as Hi.
      { destruct (Z.le_gt_cases ((total_steps cfg + 1)
                                 * gradient_accumulation_steps cfg) i) as [H | H];
          [apply Hb in H; discriminate | lia]. }
      clear Hb. destruct (skip_guard (resume_step ini) i) eqn:Hskip.
      * cbn [bind]. intros Hrest. destruct (IH _ _ Hrest) as [Hc Hret].
        unfold skip_guard in Hskip. destruct (resume_step ini) as [r |];
          [| discriminate].
        apply Z.leb_le in Hskip. split; [lia |]. rewrite Hret. lia.
      * destruct (process_microbatch _ _ _ _ _ _ _) as [ls1 |] eqn:Hp;
          [| discriminate].
        cbn [bind]. intros Hrest. destruct (IH _ _ Hrest) as [Hc Hret].
        apply process_microbatch_step in Hp.
        split; [| rewrite Hret; lia].
        unfold skip_guard in Hskip. destruct (resume_step ini) as [r |].
        -- apply Z.leb_gt in Hskip. lia.
        -- lia.
Qed.

Lemma train_loop_processed (cfg : Config) (env : Env) (ini : Init)
    (vl tl : list Batch) (i : Z) (ls ls' : LoopState) (b : bool) :
  0 < gradient_accumulation_steps cfg ->
  train_loop cfg env ini vl i tl ls = Ok (b, ls') ->
  let budget := (total_steps cfg + 1) * gradient_accumulation_steps cfg in
  let first := match resume_step ini with
               | Some r => Z.max i (r + 1)
               | None => i
               end in
  let stop := Z.min (i + Z.of_nat (length tl)) budget in
  process_all cfg env ini vl first
    (take (Z.to_nat (stop - first)) (drop (Z.to_nat (first - i)) tl)) ls
  = Ok ls'.
Proof.
  intros Hga. cbv zeta. revert i ls.
  induction tl as [| text rest IH]; intros i ls.
  - simpl. intros [= <- <-]. by rewrite drop_nil, take_nil.
  - cbn [train_loop]. unfold loop_body. rewrite floordiv_ok by lia.
    cbn [bind]. pose proof (budget_exceeded cfg i Hga) as Hb.
    destruct (total_steps cfg <? i / gradient_accumulation_steps cfg).
    + cbn [bind]. intros [= <- <-]. destruct Hb as [Hb _].
      specialize (Hb eq_refl).
      match goal with
      | |- context [take ?n _] => replace n with 0%nat
      end; [done |].
      destruct (resume_step ini); lia.
    + assert (i < (total_steps cfg + 1) * gradient_accumulation_steps cfg) as Hi.
      { destruct (Z.le_gt_cases ((total_steps cfg + 1)
                                 * gradient_accumulation_steps cfg) i) as [H | H];
          [apply Hb in H; discriminate | lia]. }
      clear Hb.
      assert (i + Z.of_nat (length (text :: rest))
              = i + 1 + Z.of_nat (length rest)) as -> by (cbn [length]; lia).
      destruct (skip_guard (resume_step ini) i) eqn:Hskip.
      * cbn [bind]. intros Hrest. specialize (IH _ _ Hrest).
        unfold skip_guard in Hskip. destruct (resume_step ini) as [r |];
          [| discriminate].
        apply Z.leb_le in Hskip.
        rewrite (Z.max_r i (r + 1)) by lia.
        rewrite (Z.max_r (i + 1) (r + 1)) in IH by lia.
        replace (Z.to_nat (r + 1 - i)) with (S (Z.to_nat (r + 1 - (i + 1))))
          by lia.
        exact IH.
      * destruct (process_microbatch _ _ _ _ _ _ _) as [ls1 |] eqn:Hp;
          [| discriminate].
        cbn [bind]. intros Hrest. specialize (IH _ _ Hrest).
        assert (match resume_step ini with
                | Some r => Z.max i (r + 1)
                | None => i
                end = i) as ->.
        { unfold skip_guard in Hskip. destruct (resume_step ini) as [r |];
            [apply Z.leb_gt in Hskip; lia | done]. }
        assert (match resume_step ini with
                | Some r => Z.max (i + 1) (r + 1)
                | None => i + 1
                end = i + 1) as Hfirst.
        { unfold skip_guard in Hskip. destruct (resume_step ini) as [r |];
            [apply Z.leb_gt in Hskip; lia | done]. }
        rewrite Hfirst in IH.
        replace (Z.to_nat (i - i)) with 0%nat by lia.
        replace (Z.to_nat (i + 1 - (i + 1))) with 0%nat in IH by lia.
        cbn [drop] in *.
        match goal with
        | |- context [take (Z.to_nat ?n) _] =>
            replace (Z.to_nat n) with (S (Z.to_nat (n - 1))) by lia;
            replace (n - 1) with
              (Z.min (i + 1 + Z.of_nat (length rest))
                     ((total_steps cfg + 1) * gradient_accumulation_steps cfg)
               - (i + 1)) by lia
        end.
        cbn [take process_all]. rewrite Hp. cbn [bind]. exact IH.
Qed.

(** C5: a start-up on a resume sets resume_step to the step field of the
    state it returns; and a training loop that returns after such a
    start-up has skipped every microbatch of index i <= resume_step and
    processed exactly the microbatches of index resume_step + 1 and above
    (up to the end of the data or of the step budget, whichever is first):
    its final loop state is the one obtained by processing just these, each
    in turn, from the loop state it started on, and its step counter has
    advanced by their number. *)
Theorem resume_skip_guard (cfg : Config) (env : Env) (ini : Init)
    (sto : Storage) (vl tl : list Batch) (ls ls' : LoopState) (b : bool) :
  resume env = true ->
  startup cfg env sto = Ok ini ->
  0 < gradient_accumulation_steps cfg ->
  train_loop cfg env ini vl 0 tl ls = Ok (b, ls') ->
  let r := Z.of_N (step (init_state ini)) in
  let stop := Z.min (Z.of_nat (length tl))
                    ((total_steps cfg + 1) * gradient_accumulation_steps cfg) in
  resume_step ini = Some r /\
  process_all cfg env ini vl (r + 1)
    (take (Z.to_nat (stop - (r + 1))) (drop (Z.to_nat (r + 1)) tl)) ls
  = Ok ls' /\
  Z.of_N (step (ls_state ls'))
  = Z.of_N (step (ls_state ls)) + Z.max 0 (stop - (r + 1)).
Proof.
  intros Hres Hstart Hga Hloop. cbv zeta.
  apply startup_resume_step in Hstart. rewrite Hres in Hstart.
  split; [done |]. split.
  - pose proof (train_loop_processed _ _ _ _ _ _ _ _ _ Hga Hloop) as H.
    cbv zeta in H. rewrite Hstart in H.
    rewrite Z.max_r in H by lia. rewrite Z.add_0_l in H.
    by rewrite Z.sub_0_r in H.
  - destruct (train_loop_count _ _ _ _ _ _ _ _ _ Hga Hloop) as [H _].
    rewrite Hstart in H. rewrite H. lia.
Qed.

(** X9: with a positive accumulation factor, a loop that returns has run
    one train step for each microbatch index in its range that lies above
    resume_step and below (total_steps + 1) * accumulation factor, and no
    other; it returns [True] exactly when it reached an index at or past
    that bound. *)
Theorem train_loop_step_count (cfg : Config) (env : Env) (ini : Init)
    (vl tl : list Batch) (i : Z) (ls ls' : LoopState) (b : bool) :
  0 < gradient_accumulation_steps cfg ->
  train_loop cfg env ini vl i tl ls = Ok (b, ls') ->
  let budget := (total_steps cfg + 1) * gradient_accumulation_steps cfg in
  let first := match resume_step ini with
               | Some r => Z.max i (r + 1)
               | None => i
               end in
  Z.of_N (step (ls_state ls'))
  = Z.of_N (step (ls_state ls))
    + Z.max 0 (Z.min (i + Z.of_nat (length tl)) budget - first) /\
  (b = true <-> Z.max i budget < i + Z.of_nat (length tl)).
Proof. apply train_loop_count. Qed.

(** X10: a fresh run that starts at step 0 and consumes its whole data list
    ends with a step counter equal to the number of microbatches, that is,
    to the index of the first microbatch it has not trained; a run resumed
    from that state does not train this microbatch either: the loop body
    hands the loop state back unchanged at that index. *)
Theorem resume_skips_first_untrained (cfg : Config) (env env' : Env)
    (ini ini' : Init) (vl vl' tl : list Batch) (text : Batch)
    (ls0 ls1 ls : LoopState) :
  0 < gradient_accumulation_steps cfg ->
  resume_step ini = None ->
  step (ls_state ls0) = 0%N ->
  train_loop cfg env ini vl 0 tl ls0 = Ok (false, ls1) ->
  resume_step ini' = Some (Z.of_N (step (ls_state ls1))) ->
  Z.of_N (step (ls_state ls1)) = Z.of_nat (length tl) /\
  (loop_body cfg env' ini' vl' (Z.of_nat (length tl)) text ls = Ok (Continue ls) \/
   loop_body cfg env' ini' vl' (Z.of_nat (length tl)) text ls = Ok (Return ls)).
Proof.
  intros Hga Hfresh Hzero Hloop Hres.
  destruct (train_loop_count _ _ _ _ _ _ _ _ _ Hga Hloop) as [Hc Hb].
  rewrite Hfresh, Hzero in Hc. cbv zeta in Hc, Hb.
  assert (Z.of_N (step (ls_state ls1)) = Z.of_nat (length tl)) as Hstep.
  { assert (~ Z.max 0 ((total_steps cfg + 1) * gradient_accumulation_steps cfg)
              < 0 + Z.of_nat (length tl)) by (intros H%Hb; discriminate).
    lia. }
  split; [done |].
  unfold loop_body. rewrite floordiv_ok by lia. cbn [bind].
  destruct (total_steps cfg <? _); [by right |].
  rewrite Hres, Hstep. cbn [skip_guard]. rewrite Z.leb_refl. by left.
Qed.

(** *** Side effects of the loop *)

Lemma process_microbatch_effects (cfg : Config) (env : Env) (ini : Init)
    (vl : list Batch) (i : Z) (text : Batch) (ls ls' : LoopState) :
  process_microbatch cfg env ini vl i text ls = Ok ls' ->
  (process_index env <> 0 ->
   ls_storage ls' = ls_storage ls /\ wandb_log ls' = wandb_log ls) /\
  (i mod gradient_accumulation_steps cfg <> 0 \/
   i mod (evaluation_frequency cfg * gradient_accumulation_steps cfg) <> 0 ->
   ls_storage ls' = ls_storage ls).
Proof.
  unfold process_microbatch.
  destruct (random_split (ls_rng ls)) as [rng dropout_rng].
  destruct (pjit_train_step _ _ _ _) as [[state metrics] |]; [| discriminate].
  cbn [bind]. unfold pymod at 1.
  destruct (gradient_accumulation_steps cfg =? 0); [discriminate |]. cbn [bind].
  destruct (Z.eqb_spec (i mod gradient_accumulation_steps cfg) 0) as [E1 | E1];
    [| intros [= <-]; cbn; tauto].
  destruct (dict_means _) as [tm |]; [| discriminate]. cbn [bind].
  destruct (floordiv _ _) as [q |]; [| discriminate]. cbn [bind].
  unfold pymod.
  destruct (evaluation_frequency cfg * gradient_accumulation_steps cfg =? 0);
    [discriminate |]. cbn [bind].
  destruct (Z.eqb_spec (i mod (evaluation_frequency cfg
                               * gradient_accumulation_steps cfg)) 0) as [E2 | E2].
  - destruct (dict_means _) as [vm |]; [| discriminate]. cbn [bind].
    destruct (Z.eqb_spec (process_index env) 0) as [E3 | E3].
    + destruct (dict_pop _ _) as [d |]; [| discriminate]. cbn [bind].
      destruct (checkpoint_state _ _ _ _ _) as [sto |]; [| discriminate].
      cbn [bind]. intros [= <-]. cbn. split; [tauto |]. intros [? | ?]; done.
    + intros [= <-]. cbn. tauto.
  - destruct (Z.eqb_spec (process_index env) 0) as [E3 | E3].
    + destruct (dict_get _ _) as [bt |]; [| discriminate]. cbn [bind].
      destruct (dict_pop _ _) as [d |]; [| discriminate]. cbn [bind].
      intros [= <-]. cbn. tauto.
    + intros [= <-]. cbn. tauto.
Qed.

(** On a process whose rank is not 0 the training loop leaves the durable
    storage and the metrics log as it found them. *)
Lemma train_loop_rank_frame (cfg : Config) (env : Env) (ini : Init)
    (vl tl : list Batch) (i : Z) (ls ls' : LoopState) (b : bool) :
  process_index env <> 0 ->
  train_loop cfg env ini vl i tl ls = Ok (b, ls') ->
  ls_storage ls' = ls_storage ls /\ wandb_log ls' = wandb_log ls.
Proof.
  intros Hrank. revert i ls. induction tl as [| text rest IH]; intros i ls.
  - by intros [= <- <-].
  - cbn [train_loop]. unfold loop_body.
    destruct (floordiv _ _) as [q |]; [| discriminate]. cbn [bind].
    destruct (total_steps cfg <? q); [by intros [= <- <-] |].
    destruct (skip_guard _ _); [cbn [bind]; apply IH |].
    destruct (process_microbatch _ _ _ _ _ _ _) as [ls1 |] eqn:Hp;
      [| discriminate].
    cbn [bind]. intros Hrest.
    destruct (process_microbatch_effects _ _ _ _ _ _ _ _ Hp) as [Hf _].
    destruct (Hf Hrank) as [<- <-]. by apply IH in Hrest.
Qed.

Lemma startup_rank_storage (cfg : Config) (env : Env) (sto : Storage) (ini : Init) :
  process_index env <> 0 -> startup cfg env sto = Ok ini -> init_storage ini = sto.
Proof.
  intros Hrank. unfold startup.
  destruct (floordiv (num_devices env) _); [| discriminate]. cbn [bind].
  destruct (check_mesh_shape _ _ _); [| discriminate]. cbn [bind].
  destruct (random_split PRNGKey0) as [rng irng].
  destruct (build_state _ _ _ _ _ _ _) as [[state rs] |]; [| discriminate].
  cbn [bind].
  destruct (Z.eqb_spec (process_index env) 0) as [? | _]; [done |].
  destruct (resume env); cbn [bind].
  - destruct (floordiv (num_local_devices env) _); [| discriminate]. cbn [bind].
    destruct (floordiv (batch_size cfg) _); [| discriminate]. cbn [bind].
    destruct (_ && _); [discriminate |]. by intros [= <-].
  - destruct (bucket_path cfg) as [b |]; cbn [bind].
    + destruct (bool_decide (platform env = "tpu")); [| discriminate].
      cbn [bind].
      destruct (floordiv (num_local_devices env) _); [| discriminate]. cbn [bind].
      destruct (floordiv (batch_size cfg) _); [| discriminate]. cbn [bind].
      destruct (_ && _); [discriminate |]. by intros [= <-].
    + destruct (floordiv (num_local_devices env) _); [| discriminate]. cbn [bind].
      destruct (floordiv (batch_size cfg) _); [| discriminate]. cbn [bind].
      destruct (_ && _); [discriminate |]. by intros [= <-].
Qed.

(** X11: a process whose rank is not 0 writes nothing: its training loop
    leaves the durable storage and the metrics log exactly as it found
    them, and a whole run of main that returns on such a process ends with
    the storage it was started on and an empty log. *)
Theorem nonzero_rank_writes_nothing (cfg : Config) (env : Env) :
  process_index env <> 0 ->
  (forall ini vl tl i ls ls' b,
      train_loop cfg env ini vl i tl ls = Ok (b, ls') ->
      ls_storage ls' = ls_storage ls /\ wandb_log ls' = wandb_log ls) /\
  (forall tl vl sto b ls',
      main cfg env tl vl sto = Ok (b, ls') ->
      ls_storage ls' = sto /\ wandb_log ls' = []).
Proof.
  intros Hrank. split.
  - intros ini vl tl i ls ls' b. by apply train_loop_rank_frame.
  - intros tl vl sto b ls'. unfold main.
    destruct (startup cfg env sto) as [ini |] eqn:Hs; [| discriminate].
    cbn [bind]. intros Hloop.
    apply train_loop_rank_frame in Hloop as [-> ->]; [| done].
    split; [| done]. cbn. by apply startup_rank_storage in Hs.
Qed.

(** X12: a processed microbatch changes the durable storage only at an
    evaluation point: when its index is not a multiple of the accumulation
    factor, or not a multiple of evaluation_frequency times that factor,
    the storage after it is the storage before it. *)
Theorem checkpoint_only_at_evaluation_points (cfg : Config) (env : Env)
    (ini : Init) (vl : list Batch) (i : Z) (text : Batch) (ls ls' : LoopState) :
  process_microbatch cfg env ini vl i text ls = Ok ls' ->
  i mod gradient_accumulation_steps cfg <> 0 \/
  i mod (evaluation_frequency cfg * gradient_accumulation_steps cfg) <> 0 ->
  ls_storage ls' = ls_storage ls.
Proof.
  intros Hp. by destruct (process_microbatch_effects _ _ _ _ _ _ _ _ Hp) as [_ H].
Qed.

(** *** Metrics averaging, logging and evaluation *)

Lemma dict_means_inv (ms : list Metrics) (r : Metrics) :
  dict_means ms = Ok r ->
  exists m0 rest,
    ms = m0 :: rest /\ dom r = dom m0 /\
    forall k, is_Some (m0 !! k) ->
              r !! k = Some (np_mean (omap (fun m : Metrics => m !! k) ms)).
Proof.
  unfold dict_means. destruct ms as [| m0 rest]; [discriminate |].
  case_bool_decide; [| discriminate]. intros [= <-].
  exists m0, rest. split; [done |]. split.
  - apply set_eq. intros k. rewrite !elem_of_dom, map_lookup_imap.
    destruct (m0 !! k); simpl; split; intros [? ?]; by eauto.
  - intros k [v Hk]. rewrite map_lookup_imap, Hk. simpl. by rewrite Hk.
Qed.

Lemma dict_means_validation_dom (cfg : Config) (state : TrainState)
    (vl : list Batch) (vm : Metrics) :
  dict_means (run_validation cfg state vl) = Ok vm ->
  dom vm = ({["Validation LM PPL"; "Validation LM Loss"]} : gset string).
Proof.
  intros (m0 & rest & Hms & -> & _)%dict_means_inv.
  unfold run_validation in Hms.
  destruct (take _ vl) as [| b bs]; [discriminate |].
  injection Hms as <- _. apply eval_step_dom.
Qed.

(** X13: a processed microbatch inside an accumulation window logs nothing
    and adds one entry to the running metrics; one that completes a window
    empties the running metrics and, on rank 0 only, logs exactly one
    dictionary, which never has the key Train Batch Time and reports the
    token count of the window's absolute step. *)
Theorem process_microbatch_logging (cfg : Config) (env : Env) (ini : Init)
    (vl : list Batch) (i : Z) (text : Batch) (ls ls' : LoopState) :
  process_microbatch cfg env ini vl i text ls = Ok ls' ->
  (i mod gradient_accumulation_steps cfg <> 0 ->
   wandb_log ls' = wandb_log ls /\
   exists m, running_metrics ls' = running_metrics ls ++ [m]) /\
  (i mod gradient_accumulation_steps cfg = 0 ->
   running_metrics ls' = [] /\
   (process_index env <> 0 -> wandb_log ls' = wandb_log ls) /\
   (process_index env = 0 ->
    exists d : Metrics,
      wandb_log ls' = wandb_log ls ++ [d] /\
      d !! "Train Batch Time" = None /\
      d !! "Tokens Seen (B)"
      = Some (tokens_seen (i / gradient_accumulation_steps cfg)))).
Proof.
  unfold process_microbatch.
  destruct (random_split (ls_rng ls)) as [rng dropout_rng].
  destruct (pjit_train_step _ _ _ _) as [[state metrics] |]; [| discriminate].
  cbn [bind]. unfold pymod at 1, floordiv.
  destruct (gradient_accumulation_steps cfg =? 0); [discriminate |]. cbn [bind].
  destruct (Z.eqb_spec (i mod gradient_accumulation_steps cfg) 0) as [E1 | E1];
    [| intros [= <-]; cbn; split; [by eauto | done]].
  destruct (dict_means _) as [tm |]; [| discriminate]. cbn [bind].
  unfold pymod.
  destruct (evaluation_frequency cfg * gradient_accumulation_steps cfg =? 0);
    [discriminate |]. cbn [bind].
  destruct (_ =? 0).
  - destruct (dict_means _) as [vm |] eqn:Hvm; [| discriminate]. cbn [bind].
    apply dict_means_validation_dom in Hvm.
    destruct (Z.eqb_spec (process_index env) 0) as [E3 | E3].
    + unfold dict_pop. destruct (_ !! "Train Batch Time"); [| discriminate].
      cbn [bind].
      destruct (checkpoint_state _ _ _ _ _) as [sto |]; [| discriminate].
      cbn [bind]. intros [= <-]. cbn. split; [done |]. intros _.
      split; [done |]. split; [done |]. intros _.
      eexists. split; [done |]. split; [apply lookup_delete_eq |].
      rewrite lookup_delete_ne by done.
      rewrite lookup_union_r.
      * by rewrite lookup_insert_eq.
      * apply not_elem_of_dom. rewrite Hvm, elem_of_union, !elem_of_singleton.
        intros [? | ?]; discriminate.
    + intros [= <-]. cbn. split; [done |]. intros _. split; [done |].
      split; [done |]. done.
  - destruct (Z.eqb_spec (process_index env) 0) as [E3 | E3].
    + destruct (dict_get _ _) as [bt |]; [| discriminate]. cbn [bind].
      unfold dict_pop. destruct (_ !! "Train Batch Time"); [| discriminate].
      cbn [bind]. intros [= <-]. cbn. split; [done |]. intros _.
      split; [done |]. split; [done |]. intros _.
      eexists. split; [done |]. split; [apply lookup_delete_eq |].
      rewrite lookup_delete_ne by done. rewrite lookup_insert_ne by done.
      by rewrite lookup_insert_eq.
    + intros [= <-]. cbn. split; [done |]. intros _. split; [done |].
      split; [done |]. done.
Qed.

Lemma mod_multiple_of_factor (i ef ga : Z) :
  ga <> 0 -> ef <> 0 -> i mod (ef * ga) = 0 -> i mod ga = 0.
Proof.
  intros Hga Hef Hm. apply Z.mod_divide in Hm; [| lia].
  apply Z.mod_divide; [done |].
  destruct Hm as [q ->]. exists (q * ef). lia.
Qed.

(** X14: at an evaluation point the loop needs at least one validation
    batch: when maximum_evaluation_steps is not positive, or the validation
    loader yields nothing, a microbatch whose train step returned never
    returns, on any rank and whatever entries the running metrics hold: it
    raises IndexError once the window's averages are computed (KeyError
    when they cannot be), before anything is logged or saved. *)
Theorem evaluation_without_batches_raises (cfg : Config) (env : Env) (ini : Init)
    (vl : list Batch) (i : Z) (text : Batch) (ls : LoopState)
    (state1 : TrainState) (metrics : Metrics) :
  gradient_accumulation_steps cfg <> 0 ->
  evaluation_frequency cfg <> 0 ->
  i mod (evaluation_frequency cfg * gradient_accumulation_steps cfg) = 0 ->
  maximum_evaluation_steps cfg <= 0 \/ vl = [] ->
  pjit_train_step cfg (ls_state ls) (reshape text (step_to_seq i))
    (random_split (ls_rng ls)).2
  = Ok (state1, metrics) ->
  (forall ls', process_microbatch cfg env ini vl i text ls <> Ok ls') /\
  match dict_means (running_metrics ls ++ [stamp_metrics i metrics]) with
  | Ok _ => process_microbatch cfg env ini vl i text ls = Raise IndexError
  | Raise e =>
      e = KeyError /\ process_microbatch cfg env ini vl i text ls = Raise KeyError
  end.
Proof.
  intros Hga Hef Hmod Hnone Htrain.
  pose proof (mod_multiple_of_factor _ _ _ Hga Hef Hmod) as Hmod'.
  assert (run_validation cfg state1 vl = []) as Hval.
  { unfold run_validation. destruct Hnone as [Hmax | ->].
    - by replace (Z.to_nat (maximum_evaluation_steps cfg)) with 0%nat by lia.
    - by rewrite take_nil. }
  assert (process_microbatch cfg env ini vl i text ls
          = (do _ <- dict_means (running_metrics ls ++ [stamp_metrics i metrics]);
             Raise IndexError)) as ->.
  { unfold process_microbatch.
    destruct (random_split (ls_rng ls)) as [rng dropout_rng].
    cbn [snd] in Htrain. rewrite Htrain. cbn [bind].
    rewrite pymod_ok, Hmod' by done. cbn [bind Z.eqb].
    destruct (dict_means _) as [tm |]; [| done]. cbn [bind].
    rewrite floordiv_ok by done. cbn [bind].
    rewrite pymod_ok, Hmod by lia. cbn [bind Z.eqb].
    by rewrite Hval. }
  destruct (dict_means _) as [tm | e] eqn:Hmeans; cbn [bind].
  - done.
  - assert (e = KeyError) as ->; [| done].
    unfold dict_means in Hmeans.
    destruct (running_metrics ls ++ _) as [| m0 ms] eqn:Hrun.
    + by destruct (running_metrics ls).
    + case_bool_decide; [discriminate |]. by injection Hmeans as <-.
Qed.

(** X15: a zero accumulation factor makes the loop raise ZeroDivisionError
    at its first microbatch, before any train step; with a zero evaluation
    frequency a microbatch that completes an accumulation window raises
    ZeroDivisionError after its train step, once the window's averages are
    computed (KeyError when they cannot be), whatever entries the running
    metrics hold. *)
Theorem zero_factors_raise (cfg : Config) (env : Env) (ini : Init)
    (vl rest : list Batch) (i : Z) (text : Batch) (ls : LoopState)
    (state1 : TrainState) (metrics : Metrics) :
  (gradient_accumulation_steps cfg = 0 ->
   train_loop cfg env ini vl i (text :: rest) ls = Raise ZeroDivisionError) /\
  (gradient_accumulation_steps cfg <> 0 ->
   evaluation_frequency cfg = 0 ->
   i mod gradient_accumulation_steps cfg = 0 ->
   pjit_train_step cfg (ls_state ls) (reshape text (step_to_seq i))
     (random_split (ls_rng ls)).2
   = Ok (state1, metrics) ->
   match dict_means (running_metrics ls ++ [stamp_metrics i metrics]) with
   | Ok _ =>
       process_microbatch cfg env ini vl i text ls = Raise ZeroDivisionError
   | Raise e =>
       e = KeyError /\
       process_microbatch cfg env ini vl i text ls = Raise KeyError
   end).
Proof.
  split.
  - intros Hga. cbn [train_loop]. unfold loop_body, floordiv. by rewrite Hga.
  - intros Hga Hef Hmod Htrain.
    assert (process_microbatch cfg env ini vl i text ls
            = (do _ <- dict_means
                         (running_metrics ls ++ [stamp_metrics i metrics]);
               Raise ZeroDivisionError)) as ->.
    { unfold process_microbatch.
      destruct (random_split (ls_rng ls)) as [rng dropout_rng].
      cbn [snd] in Htrain. rewrite Htrain. cbn [bind].
      rewrite pymod_ok, Hmod by done. cbn [bind Z.eqb].
      destruct (dict_means _) as [tm |]; [| done]. cbn [bind].
      rewrite floordiv_ok by done. cbn [bind]. by rewrite Hef. }
    destruct (dict_means _) as [tm | e] eqn:Hmeans; cbn [bind].
    + done.
    + assert (e = KeyError) as ->; [| done].
      unfold dict_means in Hmeans.
      destruct (running_metrics ls ++ _) as [| m0 ms] eqn:Hrun.
      * by destruct (running_metrics ls).
      * case_bool_decide; [discriminate |]. by injection Hmeans as <-.
Qed.

(** X20: in the pure data-parallel path the wrapped train step is built
    with four argument specs and called with three arguments, so every
    microbatch the loop processes raises ValueError; a loop that returns
    there has trained nothing: its final loop state is the one it started
    on. *)
Theorem data_parallel_loop_trains_nothing (cfg : Config) (env : Env)
    (ini : Init) (vl : list Batch) :
  mp_devices cfg = 1 ->
  (forall i text ls,
      process_microbatch cfg env ini vl i text ls = Raise ValueError) /\
  (forall tl i ls b ls',
      train_loop cfg env ini vl i tl ls = Ok (b, ls') -> ls' = ls).
Proof.
  intros Hmp.
  assert (forall i text ls,
             process_microbatch cfg env ini vl i text ls = Raise ValueError)
    as Hraise.
  { intros i text ls. unfold process_microbatch.
    destruct (random_split (ls_rng ls)) as [rng dropout_rng].
    by rewrite pjit_train_step_data_parallel. }
  split; [exact Hraise |].
  induction tl as [| text rest IH]; intros i ls b ls'.
  - by intros [= _ <-].
  - cbn [train_loop]. unfold loop_body.
    destruct (floordiv _ _) as [q |]; [| discriminate]. cbn [bind].
    destruct (total_steps cfg <? q); [by intros [= _ <-] |].
    destruct (skip_guard _ _); [cbn [bind]; apply IH |].
    by rewrite Hraise.
Qed.

(** *** Start-up: what it refuses and what it does to the storage *)

Lemma prefix_refl (s : string) : String.prefix s s = true.
Proof.
  induction s as [| c s IH]; [done |]. simpl.
  by destruct (Ascii.ascii_dec c c).
Qed.

(** X16: start-up never completes for a fresh run that has a bucket path on
    a platform other than tpu (the bucket client is created from a name the
    function has not bound: UnboundLocalError once the mesh assertion has
    passed), nor on tpu without a bucket path (the shard lists are bound in
    neither branch). *)
Theorem startup_unbound_locals (cfg : Config) (env : Env) (sto : Storage) :
  (resume env = false -> is_Some (bucket_path cfg) -> platform env <> "tpu" ->
   (forall ini, startup cfg env sto <> Ok ini) /\
   (num_local_devices env <> 0 ->
    check_mesh_shape (num_devices env) (dp_devices cfg) (mp_devices cfg) = Ok tt ->
    startup cfg env sto = Raise UnboundLocalError)) /\
  (platform env = "tpu" -> bucket_path cfg = None ->
   forall ini, startup cfg env sto <> Ok ini).
Proof.
  split.
  - intros Hres [b Hb] Htpu.
    assert (forall r : Result Init,
               r = startup cfg env sto ->
               (forall ini, r <> Ok ini) /\
               (num_local_devices env <> 0 ->
                check_mesh_shape (num_devices env) (dp_devices cfg)
                  (mp_devices cfg) = Ok tt ->
                r = Raise UnboundLocalError)) as H; [| by apply H].
    intros r ->. unfold startup, build_state.
    rewrite Hres, Hb, (bool_decide_eq_false_2 _ Htpu). cbn [andb].
    destruct (random_split PRNGKey0) as [rng irng].
    split.
    + intros ini. destruct (floordiv (num_devices env) _); [| done]. cbn [bind].
      destruct (check_mesh_shape _ _ _); [| done]. cbn [bind].
      by destruct (mp_devices cfg =? 1).
    + intros Hloc Hmesh. rewrite floordiv_ok, Hmesh by done. cbn [bind].
      by destruct (mp_devices cfg =? 1).
  - intros Htpu Hb ini. unfold startup.
    rewrite Hb, (bool_decide_eq_true_2 _ Htpu).
    rewrite (bool_decide_eq_false_2 (is_Some None)) by (by intros [? ?]).
    cbn [andb negb].
    destruct (floordiv (num_devices env) _); [| done]. cbn [bind].
    destruct (check_mesh_shape _ _ _); [| done]. cbn [bind].
    destruct (random_split PRNGKey0) as [rng irng].
    destruct (build_state _ _ _ _ _ _ _) as [[state rs] |]; [| done]. cbn [bind].
    destruct (resume env); cbn [bind];
      (destruct (floordiv (num_local_devices env) _); [| done]); cbn [bind];
      (destruct (floordiv (batch_size cfg) _); [| done]); done.
Qed.

(** X17: a start-up that completes never touches plain files; it leaves the
    whole storage as it was on a resume, on a process of non-zero rank, and
    without a bucket path; and when a fresh run on rank 0 has a bucket path,
    the checkpoint directory gs://<bucket_path>/<checkpoint_directory> is
    empty afterwards. *)
Theorem startup_storage (cfg : Config) (env : Env) (sto : Storage) (ini : Init) :
  startup cfg env sto = Ok ini ->
  files (init_storage ini) = files sto /\
  (resume env = true \/ process_index env <> 0 \/ bucket_path cfg = None ->
   init_storage ini = sto) /\
  (resume env = false -> process_index env = 0 -> is_Some (bucket_path cfg) ->
   listdir (init_storage ini) (gs_workdir cfg) = ∅).
Proof.
  unfold startup.
  destruct (floordiv (num_devices env) _); [| discriminate]. cbn [bind].
  destruct (check_mesh_shape _ _ _); [| discriminate]. cbn [bind].
  destruct (random_split PRNGKey0) as [rng irng].
  destruct (build_state _ _ _ _ _ _ _) as [[state rs] |]; [| discriminate].
  cbn [bind].
  assert (forall (c : option unit) (s : Storage) (k : option unit * Storage -> Result Init),
             (forall cs, k cs = Ok ini -> init_storage ini = cs.2) ->
             k (c, s) = Ok ini -> init_storage ini = s) as Hk
    by (intros c s k H E; by apply H in E).
  destruct (resume env) eqn:Hres; cbn [bind].
  - destruct (floordiv (num_local_devices env) _); [| discriminate]. cbn [bind].
    destruct (floordiv (batch_size cfg) _); [| discriminate]. cbn [bind].
    destruct (_ && _); [discriminate |]. intros [= <-]. cbn.
    split; [done |]. split; [done |]. done.
  - destruct (bucket_path cfg) as [b |] eqn:Hb; cbn [bind].
    + destruct (bool_decide (platform env = "tpu")); [| discriminate].
      cbn [bind].
      destruct (floordiv (num_local_devices env) _); [| discriminate]. cbn [bind].
      destruct (floordiv (batch_size cfg) _); [| discriminate]. cbn [bind].
      destruct (_ && _); [discriminate |]. intros [= <-]. cbn.
      destruct (Z.eqb_spec (process_index env) 0) as [Hr | Hr].
      * split; [done |]. split; [intros [? | [? | ?]]; done |].
        intros _ _ _. unfold listdir, clear_bucket. cbn [ckpt_dirs].
        assert (filter (fun kv : string * gmap N StateDict =>
                          String.prefix ("gs://" ++ b ++ "/"
                                         ++ checkpoint_directory cfg) kv.1 = false)
                       (ckpt_dirs sto) !! gs_workdir cfg = None) as ->; [| done].
        apply map_lookup_filter_None. right. intros x _. cbn.
        unfold gs_workdir. rewrite Hb. cbn [fmt_opt default].
        by rewrite prefix_refl.
      * split; [done |]. split; [done |]. done.
    + destruct (floordiv (num_local_devices env) _); [| discriminate]. cbn [bind].
      destruct (floordiv (batch_size cfg) _); [| discriminate]. cbn [bind].
      destruct (_ && _); [discriminate |]. intros [= <-]. cbn.
      split; [done |]. split; [done |]. by intros _ _ [? ?].
Qed.

(** X18: in the combined path with a bucket, what the loop's checkpoint
    writes on rank 0 a resume reads back: step and params come from the
    primary checkpoint, opt_state from the separate blob, and both are those
    of the saved state; the resumed state carries no dynamic scale and the
    optimizer and apply function of the combined path. *)
Theorem checkpoint_then_resume_combined (cfg : Config) (env env' : Env)
    (ini : Init) (state : TrainState) (rng irng : Key) (sto sto' : Storage) :
  1 < mp_devices cfg -> process_index env = 0 -> resume env' = true ->
  is_Some (init_client ini) ->
  checkpoint_state cfg env ini state sto = Ok sto' ->
  exists restored,
    build_state cfg env' true (init_bucket ini) rng irng sto'
    = Ok (restored, Some (Z.of_N (step state))) /\
    step restored = step state /\
    params restored = params state /\
    opt_state restored = opt_state state /\
    dynamic_scale restored = None /\
    apply_fn restored = model_apply /\
    tx restored = mp_tx.
Proof.
  intros Hmp Hrank Hres [[] Hclient]. unfold checkpoint_state.
  destruct (Z.ltb_spec 1 (mp_devices cfg)); [| lia].
  rewrite Hrank, Hclient. intros Hsave.
  pose proof (restore_after_save state (create_train_state irng) _ _ _ _ _ Hsave)
    as Hrestore.
  destruct (save_checkpoint_rank0 state (gs_workdir cfg) (init_bucket ini)
              (Some ()) sto) as (sto1 & _ & E & _ & _ & Hblob).
  rewrite E in Hsave. injection Hsave as ->.
  unfold build_state, download_blob.
  destruct (Z.eqb_spec (mp_devices cfg) 1); [lia |].
  rewrite Hres, Hblob. cbn [bind]. rewrite Hrestore. cbn.
  by eexists.
Qed.

(** X19: a resume in the combined path needs the separate opt_state blob:
    state construction returns exactly when the blob is present (in the
    bucket when one is used, as a file under the checkpoint directory
    otherwise) and raises NotFound or FileNotFoundError when it is not,
    whatever checkpoints the directory holds. *)
Theorem combined_resume_needs_opt_state_blob (cfg : Config) (env : Env)
    (stb : bool) (bucket : option string) (rng irng : Key) (sto : Storage) :
  mp_devices cfg <> 1 -> resume env = true ->
  let found :=
    if stb then bucket_blobs sto !! (bucket, "checkpoints/opt_state.msgpack")
    else files sto !! (checkpoint_directory cfg ++ "/opt_state.msgpack")%string in
  (succeeds (build_state cfg env stb bucket rng irng sto) <-> is_Some found) /\
  (found = None ->
   build_state cfg env stb bucket rng irng sto
   = Raise (if stb then NotFound else FileNotFoundError)) /\
  (forall state rs o,
      build_state cfg env stb bucket rng irng sto = Ok (state, rs) ->
      found = Some o -> opt_state state = o).
Proof.
  intros Hmp Hres. cbv zeta. unfold build_state, download_blob, read_file.
  destruct (Z.eqb_spec (mp_devices cfg) 1); [lia |]. rewrite Hres.
  destruct stb.
  - destruct (bucket_blobs sto !! _) as [o |]; cbn [bind].
    + split; [split; intros _; by eexists |]. split; [done |].
      by intros state rs o' [= <- _] [= <-].
    + split; [split; [by intros [? ?] | by intros [? ?]] |]. split; [done |].
      done.
  - destruct (files sto !! _) as [o |]; cbn [bind].
    + split; [split; intros _; by eexists |]. split; [done |].
      by intros state rs o' [= <- _] [= <-].
    + split; [split; [by intros [? ?] | by intros [? ?]] |]. split; [done |].
      done.
Qed.


End Theorems.

(** ** The program on explicit inputs *)



Import Demo.

(** A state with loss scaling enabled: the train step raises. *)
Lemma train_step_scaled_raises_witness :
  train_step (state_at 0 (Some half_on_overflow)) (batch 7) (Some (key 1)) None
  = Raise IndexError.
Proof.
  exact (proj1 (train_step_scaled_raises (state_at 0 (Some half_on_overflow))
                  half_on_overflow (batch 7) (Some (key 1)) None eq_refl)).
Defined.

Lemma save_checkpoint_rank_guard_witness :
  save_checkpoint 1 (state_at 5 None) "checkpoints" None None storage_at_step_5
  = Ok storage_at_step_5.
Proof. apply save_checkpoint_rank_guard. discriminate. Defined.

Lemma checkpoint_retention_witness :
  exists sto' latest,
    save_cycles 0 "checkpoints" None None
      [state_at 10 None; state_at 20 None; state_at 30 None;
       state_at 40 None; state_at 50 None] storage_at_step_5 = Ok sto' /\
    last [state_at 10 None; state_at 20 None; state_at 30 None;
          state_at 40 None; state_at 50 None] = Some latest /\
    (size (listdir sto' "checkpoints") <= 3)%nat /\
    listdir sto' "checkpoints" !! step latest = Some (to_state_dict latest) /\
    listed_steps (listdir sto' "checkpoints") = [30; 40; 50]%N.
Proof.
  destruct (checkpoint_retention "checkpoints" None None
              [state_at 10 None; state_at 20 None; state_at 30 None;
               state_at 40 None; state_at 50 None] storage_at_step_5)
    as (sto' & latest & Hsave & Hlast & Hsize & Hlatest & _ & Hexact).
  - simpl. lia.
  - exists sto', latest. repeat (split; [assumption |]).
    apply Hexact. simpl. repeat constructor.
Defined.

(** C4 (counterexample): a resume request on a storage that holds no
    checkpoint at all starts up normally, with resume_step 0. *)
Lemma resume_without_checkpoint_starts :
  resume (env 0 true) = true /\
  listdir empty_storage (checkpoint_directory cfg) = ∅ /\
  exists ini,
    startup cfg (env 0 true) empty_storage = Ok ini /\
    init_state ini = state_at 0 None /\
    resume_step ini = Some 0.
Proof.
  split; [reflexivity |]. split; [reflexivity |].
  eexists. split; [reflexivity |]. split; reflexivity.
Qed.

Lemma resume_without_checkpoint_witness :
  build_state cfg (env 0 true) false None (key 1) (key 2) empty_storage
  = Ok (state_at 0 None, Some 0) /\
  build_state cfg (env 0 false) false None (key 1) (key 2) empty_storage
  = build_state cfg (env 0 false) false None (key 1) (key 2) storage_at_step_5.
Proof.
  destruct (resume_without_checkpoint cfg (env 0 true) false None (key 1) (key 2)
              empty_storage) as (_ & Hresume & _).
  destruct (resume_without_checkpoint cfg (env 0 false) false None (key 1) (key 2)
              empty_storage) as (_ & _ & Hfresh).
  split.
  - apply Hresume; reflexivity.
  - apply Hfresh. reflexivity.
Defined.

Lemma startup_bucket_resumed_at_5 :
  startup cfg_mp (env_tpu 0 true) bucket_resumable_at_5 = Ok bucket_resumed_at_5.
Proof. reflexivity. Qed.

(** Resuming the combined path from the checkpoint of step 5 on eight
    microbatches: microbatches 0 to 5 are skipped, microbatches 6 and 7 are
    processed, and the step counter ends at 7. *)
Lemma resume_skip_guard_witness :
  exists b ls',
    train_loop cfg_mp (env_tpu 0 true) bucket_resumed_at_5 [batch 4] 0
      eight_batches (initial_loop_state bucket_resumed_at_5) = Ok (b, ls') /\
    resume_step bucket_resumed_at_5 = Some 5 /\
    process_all cfg_mp (env_tpu 0 true) bucket_resumed_at_5 [batch 4] 6
      [batch 16; batch 17] (initial_loop_state bucket_resumed_at_5) = Ok ls' /\
    step (ls_state ls') = 7%N.
Proof.
  assert (exists b ls',
             train_loop cfg_mp (env_tpu 0 true) bucket_resumed_at_5 [batch 4] 0
               eight_batches (initial_loop_state bucket_resumed_at_5)
             = Ok (b, ls'))
    as (b & ls' & E) by (do 2 eexists; vm_compute; reflexivity).
  assert (0 < gradient_accumulation_steps cfg_mp) as Hga by reflexivity.
  destruct (resume_skip_guard cfg_mp (env_tpu 0 true) bucket_resumed_at_5
              bucket_resumable_at_5 [batch 4] eight_batches
              (initial_loop_state bucket_resumed_at_5) ls' b
              eq_refl startup_bucket_resumed_at_5 Hga E)
    as (Hrs & Hall & Hstep).
  exists b, ls'. split; [exact E |]. split; [exact Hrs |].
  split; [exact Hall |]. apply N2Z.inj. rewrite Hstep. reflexivity.
Defined.



(** *** The further properties on explicit inputs *)

(** Eight devices fit a mesh of 8 x 1, fifteen still do, sixteen do not,
    and an empty mesh divides by zero. *)
Lemma check_mesh_shape_outcomes_witness :
  check_mesh_shape 8 8 1 = Ok tt /\
  check_mesh_shape 15 8 1 = Ok tt /\
  check_mesh_shape 16 8 1 = Raise AssertionError /\
  check_mesh_shape 8 0 1 = Raise ZeroDivisionError.
Proof.
  split; [| split; [| split]].
  - apply (proj2 (check_mesh_shape_outcomes 8 8 1)); lia.
  - apply (proj2 (check_mesh_shape_outcomes 15 8 1)); lia.
  - apply (proj2 (check_mesh_shape_outcomes 16 8 1)); lia.
  - apply (proj1 (check_mesh_shape_outcomes 8 0 1)). reflexivity.
Defined.

(** Host 1 of 2 reads shards 1 and 3 of five. *)
Lemma split_by_jax_process_lookup_witness :
  exists mine,
    split_by_jax_process 1 2 [10; 11; 12; 13; 14] = Ok mine /\
    mine !! 0%nat = Some 11 /\ mine !! 1%nat = Some 13 /\ mine !! 2%nat = None.
Proof.
  destruct (proj1 (proj2 (split_by_jax_process_lookup 1 2 [10; 11; 12; 13; 14])))
    as (mine & E & H); [lia | lia |].
  exists mine. split; [exact E |]. rewrite !H. repeat split.
Defined.



Lemma combined_checkpoint_unseen_by_local_resume_witness :
  exists sto',
    checkpoint_state cfg_mp (env 0 false) fresh_ini (state_at 7 None) empty_storage
    = Ok sto' /\
    build_state cfg_mp (env 0 true) false None (key 1) (key 2) sto'
    = build_state cfg_mp (env 0 true) false None (key 1) (key 2) empty_storage.
Proof.
  assert (exists sto',
             checkpoint_state cfg_mp (env 0 false) fresh_ini (state_at 7 None)
               empty_storage = Ok sto') as [sto' E]
    by (eexists; reflexivity).
  assert (1 < mp_devices cfg_mp) as Hmp by reflexivity.
  exists sto'. split; [exact E |].
  exact (combined_checkpoint_unseen_by_local_resume cfg_mp (env 0 false)
           (env 0 true) fresh_ini (state_at 7 None) None (key 1) (key 2)
           empty_storage sto' Hmp E).
Defined.

Lemma train_step_invariants_witness :
  exists new_state metrics,
    train_step (state_at 0 None) (batch 7) (Some (key 1)) None
    = Ok (new_state, metrics) /\
    step new_state = 1%N /\
    metrics !! "Loss Scale" = None.
Proof.
  destruct (train_step_invariants (state_at 0 None) (batch 7) (Some (key 1)) None)
    as [Hinv Htotal].
  destruct (Htotal eq_refl) as [[new_state metrics] E].
  destruct (Hinv new_state metrics E) as (Hstep & _ & _ & Hds & _ & Hscale & _).
  exists new_state, metrics. split; [exact E |]. split; [exact Hstep |].
  rewrite Hscale. destruct (dynamic_scale new_state) eqn:Hd; [| reflexivity].
  destruct (proj1 Hds) as [? ?]; [by eexists | discriminate].
Defined.

(** Five microbatches of a fresh combined-path run: five train steps, and
    the loop runs off the end of its data. *)
Lemma train_loop_step_count_witness :
  exists ls',
    train_loop cfg_mp (env_tpu 0 false) bucket_ini [batch 4] 0
      [batch 9; batch 9; batch 9; batch 9; batch 9] (initial_loop_state bucket_ini)
    = Ok (false, ls') /\
    step (ls_state ls') = 5%N.
Proof.
  assert (exists b ls',
             train_loop cfg_mp (env_tpu 0 false) bucket_ini [batch 4] 0
               [batch 9; batch 9; batch 9; batch 9; batch 9]
               (initial_loop_state bucket_ini) = Ok (b, ls'))
    as (b & ls' & E) by (do 2 eexists; vm_compute; reflexivity).
  assert (0 < gradient_accumulation_steps cfg_mp) as Hga by reflexivity.
  destruct (train_loop_step_count cfg_mp (env_tpu 0 false) bucket_ini [batch 4]
              [batch 9; batch 9; batch 9; batch 9; batch 9] 0
              (initial_loop_state bucket_ini) ls' b Hga E) as [Hstep Hb].
  exists ls'. split.
  - destruct b; [| exact E]. exfalso.
    pose proof (proj1 Hb eq_refl) as Hlt. vm_compute in Hlt. discriminate.
  - apply N2Z.inj. rewrite Hstep. reflexivity.
Defined.

(** The run above stops with step 5; resumed from there, microbatch 5 is
    passed over. *)
Lemma resume_skips_first_untrained_witness :
  loop_body cfg_mp (env_tpu 0 true) bucket_resumed_at_5 [batch 4] 5 (batch 9)
    (initial_loop_state bucket_resumed_at_5)
  = Ok (Continue (initial_loop_state bucket_resumed_at_5)) \/
  loop_body cfg_mp (env_tpu 0 true) bucket_resumed_at_5 [batch 4] 5 (batch 9)
    (initial_loop_state bucket_resumed_at_5)
  = Ok (Return (initial_loop_state bucket_resumed_at_5)).
Proof.
  assert (exists ls1,
             train_loop cfg_mp (env_tpu 0 false) bucket_ini [batch 4] 0
               [batch 9; batch 9; batch 9; batch 9; batch 9]
               (initial_loop_state bucket_ini) = Ok (false, ls1) /\
             resume_step bucket_resumed_at_5
             = Some (Z.of_N (step (ls_state ls1))))
    as (ls1 & E & Hr)
    by (eexists; split; [vm_compute; reflexivity | reflexivity]).
  assert (0 < gradient_accumulation_steps cfg_mp) as Hga by reflexivity.
  exact (proj2 (resume_skips_first_untrained cfg_mp (env_tpu 0 false)
                  (env_tpu 0 true) bucket_ini bucket_resumed_at_5 [batch 4]
                  [batch 4] [batch 9; batch 9; batch 9; batch 9; batch 9]
                  (batch 9) (initial_loop_state bucket_ini) ls1
                  (initial_loop_state bucket_resumed_at_5)
                  Hga eq_refl eq_refl E Hr)).
Defined.

(** A combined-path run of five microbatches on rank 1, started on a bucket
    that holds the checkpoint of step 5: nothing stored, nothing logged. *)
Lemma nonzero_rank_writes_nothing_witness :
  exists b ls',
    main cfg_mp (env_tpu 1 false)
      [batch 9; batch 9; batch 9; batch 9; batch 9] [batch 4]
      bucket_storage_at_step_5 = Ok (b, ls') /\
    ls_storage ls' = bucket_storage_at_step_5 /\ wandb_log ls' = [].
Proof.
  assert (exists b ls',
             main cfg_mp (env_tpu 1 false)
               [batch 9; batch 9; batch 9; batch 9; batch 9] [batch 4]
               bucket_storage_at_step_5 = Ok (b, ls'))
    as (b & ls' & E) by (do 2 eexists; vm_compute; reflexivity).
  assert (process_index (env_tpu 1 false) <> 0) as Hrank by discriminate.
  exists b, ls'. split; [exact E |].
  exact (proj2 (nonzero_rank_writes_nothing cfg_mp (env_tpu 1 false) Hrank)
           [batch 9; batch 9; batch 9; batch 9; batch 9] [batch 4]
           bucket_storage_at_step_5 b ls' E).
Defined.

(** Microbatch 2 completes a window of 2 but is no evaluation point (these
    come every 10 microbatches): the storage stays empty. *)
Lemma checkpoint_only_at_evaluation_points_witness :
  exists ls',
    process_microbatch cfg_mp (env_tpu 0 false) bucket_ini [batch 4] 2 (batch 9)
      (initial_loop_state bucket_ini) = Ok ls' /\
    ls_storage ls' = empty_storage.
Proof.
  assert (exists ls',
             process_microbatch cfg_mp (env_tpu 0 false) bucket_ini [batch 4] 2
               (batch 9) (initial_loop_state bucket_ini) = Ok ls') as [ls' E]
    by (eexists; vm_compute; reflexivity).
  assert (2 mod gradient_accumulation_steps cfg_mp <> 0 \/
          2 mod (evaluation_frequency cfg_mp * gradient_accumulation_steps cfg_mp)
          <> 0)
    as Hmod by (right; discriminate).
  exists ls'. split; [exact E |].
  exact (checkpoint_only_at_evaluation_points cfg_mp (env_tpu 0 false) bucket_ini
           [batch 4] 2 (batch 9) (initial_loop_state bucket_ini) ls' E Hmod).
Defined.

(** Microbatch 2 on rank 0 logs one dictionary, for absolute step 1. *)
Lemma process_microbatch_logging_witness :
  exists ls' (d : gmap string Z),
    process_microbatch cfg_mp (env_tpu 0 false) bucket_ini [batch 4] 2 (batch 9)
      (initial_loop_state bucket_ini) = Ok ls' /\
    running_metrics ls' = [] /\
    wandb_log ls' = [d] /\
    d !! "Train Batch Time" = None /\
    d !! "Tokens Seen (B)" = Some 1.
Proof.
  assert (exists ls',
             process_microbatch cfg_mp (env_tpu 0 false) bucket_ini [batch 4] 2
               (batch 9) (initial_loop_state bucket_ini) = Ok ls') as [ls' E]
    by (eexists; vm_compute; reflexivity).
  destruct (process_microbatch_logging cfg_mp (env_tpu 0 false) bucket_ini
              [batch 4] 2 (batch 9) (initial_loop_state bucket_ini) ls' E)
    as [_ Hwindow].
  destruct (Hwindow eq_refl) as (Hrun & _ & Hlog).
  destruct (Hlog eq_refl) as (d & Hd & Htime & Htok).
  exists ls', d. split; [exact E |]. split; [exact Hrun |].
  split; [exact Hd |]. split; [exact Htime | exact Htok].
Defined.

(** An evaluation point with an empty validation loader. *)
Lemma evaluation_without_batches_raises_witness :
  process_microbatch cfg_mp (env_tpu 0 false) bucket_ini [] 0 (batch 9)
    (initial_loop_state bucket_ini) = Raise IndexError.
Proof.
  assert (gradient_accumulation_steps cfg_mp <> 0) as Hga by discriminate.
  assert (evaluation_frequency cfg_mp <> 0) as Hef by discriminate.
  assert (maximum_evaluation_steps cfg_mp <= 0 \/ @nil Batch = []) as Hvl
    by (right; reflexivity).
  assert (exists state1 metrics,
             pjit_train_step cfg_mp (ls_state (initial_loop_state bucket_ini))
               (reshape (batch 9) (step_to_seq 0))
               (random_split (ls_rng (initial_loop_state bucket_ini))).2
             = Ok (state1, metrics))
    as (state1 & metrics & Htrain) by (do 2 eexists; reflexivity).
  destruct (evaluation_without_batches_raises cfg_mp (env_tpu 0 false) bucket_ini
              [] 0 (batch 9) (initial_loop_state bucket_ini) state1 metrics
              Hga Hef eq_refl Hvl Htrain) as [_ Herr].
  destruct (dict_means _) as [tm | e]; [exact Herr | exfalso].
  destruct Herr as [_ Herr]. revert Herr. vm_compute. discriminate.
Defined.

(** A zero accumulation factor stops the loop at once; a zero evaluation
    frequency stops it at microbatch 0, after the train step. *)
Lemma zero_factors_raise_witness :
  train_loop cfg_no_accumulation_factor (env 0 false) fresh_ini [batch 4] 0
    [batch 9; batch 9] (initial_loop_state fresh_ini) = Raise ZeroDivisionError /\
  process_microbatch cfg_no_evaluation_frequency (env_tpu 0 false) bucket_ini
    [batch 4] 0 (batch 9) (initial_loop_state bucket_ini)
  = Raise ZeroDivisionError.
Proof.
  assert (exists state1 metrics,
             pjit_train_step cfg_no_evaluation_frequency
               (ls_state (initial_loop_state bucket_ini))
               (reshape (batch 9) (step_to_seq 0))
               (random_split (ls_rng (initial_loop_state bucket_ini))).2
             = Ok (state1, metrics))
    as (state1 & metrics & Htrain) by (do 2 eexists; reflexivity).
  assert (gradient_accumulation_steps cfg_no_evaluation_frequency <> 0) as Hga
    by discriminate.
  split.
  - apply (proj1 (zero_factors_raise cfg_no_accumulation_factor (env 0 false)
                    fresh_ini [batch 4] [batch 9] 0 (batch 9)
                    (initial_loop_state fresh_ini) state1 metrics)).
    reflexivity.
  - pose proof (proj2 (zero_factors_raise cfg_no_evaluation_frequency
                         (env_tpu 0 false) bucket_ini [batch 4] [] 0 (batch 9)
                         (initial_loop_state bucket_ini) state1 metrics)
                  Hga eq_refl eq_refl Htrain) as Herr.
    destruct (dict_means _) as [tm | e]; [exact Herr | exfalso].
    destruct Herr as [_ Herr]. revert Herr. vm_compute. discriminate.
Defined.

(** The data-parallel path: microbatch 6 of a run resumed at step 5 raises,
    and a loop over three microbatches, all skipped, hands back the loop
    state it started on. *)
Lemma data_parallel_loop_trains_nothing_witness :
  process_microbatch cfg (env 0 true) resumed_at_5 [batch 4] 6 (batch 9)
    (initial_loop_state resumed_at_5) = Raise ValueError /\
  train_loop cfg (env 0 true) resumed_at_5 [batch 4] 0
    [batch 9; batch 9; batch 9] (initial_loop_state resumed_at_5)
  = Ok (false, initial_loop_state resumed_at_5).
Proof.
  destruct (data_parallel_loop_trains_nothing cfg (env 0 true) resumed_at_5
              [batch 4] eq_refl) as [Hraise Hloop].
  split; [apply Hraise |].
  assert (exists b ls',
             train_loop cfg (env 0 true) resumed_at_5 [batch 4] 0
               [batch 9; batch 9; batch 9] (initial_loop_state resumed_at_5)
             = Ok (b, ls') /\ b = false)
    as (b & ls' & E & ->)
    by (do 2 eexists; split; [vm_compute; reflexivity | reflexivity]).
  rewrite E. by rewrite (Hloop _ _ _ _ _ E).
Defined.

(** A fresh run with a bucket path on gpu stops with UnboundLocalError; a
    run on tpu without a bucket path does not start either. *)
Lemma startup_unbound_locals_witness :
  startup cfg_bucket (env 0 false) empty_storage = Raise UnboundLocalError /\
  forall ini, startup cfg (env_tpu 0 false) empty_storage <> Ok ini.
Proof.
  assert (platform (env 0 false) <> "tpu") as Hgpu by discriminate.
  assert (is_Some (bucket_path cfg_bucket)) as Hb by (by eexists).
  assert (num_local_devices (env 0 false) <> 0) as Hloc by discriminate.
  split.
  - destruct (proj1 (startup_unbound_locals cfg_bucket (env 0 false)
                       empty_storage) eq_refl Hb Hgpu) as [_ Herr].
    apply Herr; [exact Hloc | reflexivity].
  - exact (proj2 (startup_unbound_locals cfg (env_tpu 0 false) empty_storage)
             eq_refl eq_refl).
Defined.

(** A fresh run on tpu, rank 0, clears the bucket's checkpoint directory;
    the same start-up on rank 1 leaves it as it is. *)
Lemma startup_storage_witness :
  exists ini ini1,
    startup cfg_bucket (env_tpu 0 false) bucket_storage_at_step_5 = Ok ini /\
    listdir bucket_storage_at_step_5 "gs://bkt/checkpoints" <> ∅ /\
    listdir (init_storage ini) "gs://bkt/checkpoints" = ∅ /\
    startup cfg_bucket (env_tpu 1 false) bucket_storage_at_step_5 = Ok ini1 /\
    init_storage ini1 = bucket_storage_at_step_5.
Proof.
  assert (exists ini,
             startup cfg_bucket (env_tpu 0 false) bucket_storage_at_step_5
             = Ok ini) as [ini E] by (eexists; vm_compute; reflexivity).
  assert (exists ini1,
             startup cfg_bucket (env_tpu 1 false) bucket_storage_at_step_5
             = Ok ini1) as [ini1 E1] by (eexists; vm_compute; reflexivity).
  assert (is_Some (bucket_path cfg_bucket)) as Hb by (by eexists).
  destruct (startup_storage cfg_bucket (env_tpu 0 false)
              bucket_storage_at_step_5 ini E) as (_ & _ & Hclear).
  destruct (startup_storage cfg_bucket (env_tpu 1 false)
              bucket_storage_at_step_5 ini1 E1) as (_ & Hsame & _).
  exists ini, ini1. split; [exact E |]. split; [by vm_compute |].
  split; [exact (Hclear eq_refl eq_refl Hb) |]. split; [exact E1 |].
  apply Hsame. right. left. discriminate.
Defined.

(** The combined path on a bucket: step 7 checkpointed, then resumed. *)
Lemma checkpoint_then_resume_combined_witness :
  exists sto' restored,
    checkpoint_state cfg_mp (env 0 false) bucket_ini (state_at 7 None)
      empty_storage = Ok sto' /\
    build_state cfg_mp (env 0 true) true (Some "bkt") (key 1) (key 2) sto'
    = Ok (restored, Some 7) /\
    step restored = 7%N /\
    opt_state restored = [("mu", 0)].
Proof.
  assert (exists sto',
             checkpoint_state cfg_mp (env 0 false) bucket_ini (state_at 7 None)
               empty_storage = Ok sto') as [sto' E]
    by (eexists; reflexivity).
  assert (1 < mp_devices cfg_mp) as Hmp by reflexivity.
  assert (is_Some (init_client bucket_ini)) as Hc by (by eexists).
  destruct (checkpoint_then_resume_combined cfg_mp (env 0 false) (env 0 true)
              bucket_ini (state_at 7 None) (key 1) (key 2) empty_storage sto'
              Hmp eq_refl eq_refl Hc E)
    as (restored & Hbuild & Hstep & _ & Hopt & _).
  exists sto', restored. split; [exact E |]. split; [exact Hbuild |].
  split; [exact Hstep | exact Hopt].
Defined.

(** A combined-path resume on a storage with checkpoints but no opt_state
    file. *)
Lemma combined_resume_needs_opt_state_blob_witness :
  build_state cfg_mp (env 0 true) false None (key 1) (key 2) storage_at_step_5
  = Raise FileNotFoundError.
Proof.
  assert (mp_devices cfg_mp <> 1) as Hmp by discriminate.
  destruct (combined_resume_needs_opt_state_blob cfg_mp (env 0 true) false None
              (key 1) (key 2) storage_at_step_5 Hmp eq_refl) as (_ & Hnone & _).
  apply Hnone. reflexivity.
Defined.
